(** * CIFS: a block-structured file system (cifs.c / cifs.h)

    A shallow embedding of the bit allocator, the name hash and the
    file-system calls of [src/cifs/src/cifs.c], with the properties the
    specification states about them.

    Conventions of the embedding:
    - C integers are [Z] values; every conversion to an unsigned type is
      written out as a reduction modulo a power of two ([uchar], [ushort],
      [uint], [ulong]);
    - an [unsigned char*] argument is the list of bytes of the object it
      points to; an access outside that object is the fault [OutOfBounds]
      (the C functions receive no length and perform no check);
    - a [while] loop is a fuel-indexed [Fixpoint]; running out of fuel is the
      fault [OutOfFuel], and the lemmas below show when it never happens;
    - the volume is a finite map from block numbers to block images, the
      globals [cifsVolume] and [cifsContext] are the fields of [world]. *)

From Stdlib Require Import ZArith Lia Bool String Ascii List.
From stdpp Require Import base option list gmap strings.

Local Open Scope Z_scope.

(** ** Machine integers *)

Module CInt.

Definition wrap (bits z : Z) : Z := z mod 2 ^ bits.

Definition uchar  : Z -> Z := wrap 8.
Definition ushort : Z -> Z := wrap 16.
Definition uint   : Z -> Z := wrap 32.
Definition ulong  : Z -> Z := wrap 64.

Definition is_uchar (z : Z) : Prop := 0 <= z < 256.

End CInt.
Import CInt.

(** ** Results of a call: a value, or a fault of the C execution *)

Inductive fault : Type :=
| OutOfBounds   (* a read or write outside the object a pointer refers to *)
| OutOfFuel     (* a loop that did not stop within the fuel it was given *)
| NullContext   (* [cifsContext] dereferenced while it holds no context *)
| BadImage      (* a block read back under a type it was not written with *)
| NullStream.   (* the NULL stream of a failed fopen handed to the C library *)

Inductive outcome (A : Type) : Type :=
| Returned (a : A)
| Fault (f : fault).
Arguments Returned {A} a.
Arguments Fault {A} f.

Definition obind {A B : Type} (m : outcome A) (k : A -> outcome B) : outcome B :=
  match m with
  | Returned a => k a
  | Fault f => Fault f
  end.

Notation "x <-- m ;; k" := (obind m (fun x => k))
  (at level 100, m at next level, right associativity).

(** ** cifs.h: sizes and constants *)

Definition CIFS_BLOCK_SIZE : Z := 256.
Definition CIFS_NUMBER_OF_BLOCKS : Z := 65535.
Definition CIFS_MAX_NAME_LENGTH : Z := 128.
Definition CIFS_DATA_SIZE : Z := 254.
Definition CIFS_INDEX_SIZE : Z := 127.
Definition CIFS_INITIAL_VALUE_OF_THE_UNIQUE_FILE_IDENTIFIER : Z := 0.
Definition CIFS_REGISTRY_SIZE : Z := 65537.
Definition CIFS_INVALID_INDEX : Z := CIFS_NUMBER_OF_BLOCKS.

(* The macro is the unparenthesised text
   [CIFS_NUMBER_OF_BLOCKS/8/CIFS_BLOCK_SIZE]; in each of its uses
   ([X / 8], [X + 1], [i < X], as an argument) the text parses as this
   value followed by the rest, because [/] associates to the left. *)
Definition CIFS_SUPERBLOCK_INDEX : Z := CIFS_NUMBER_OF_BLOCKS / 8 / CIFS_BLOCK_SIZE.

Inductive CIFS_CONTENT_TYPE : Type :=
| CIFS_FOLDER_CONTENT_TYPE
| CIFS_FILE_CONTENT_TYPE
| CIFS_INDEX_CONTENT_TYPE
| CIFS_DATA_CONTENT_TYPE
| CIFS_INVALID_CONTENT_TYPE.

Inductive CIFS_ERROR : Type :=
| CIFS_NO_ERROR
| CIFS_ALLOC_ERROR
| CIFS_DUPLICATE_ERROR
| CIFS_NOT_FOUND_ERROR
| CIFS_NOT_EMPTY_ERROR
| CIFS_ACCESS_ERROR
| CIFS_WRITE_ERROR
| CIFS_READ_ERROR
| CIFS_IN_USE_ERROR
| CIFS_OPEN_ERROR
| CIFS_SYSTEM_ERROR.

(** ** The bit allocator *)

Module BitAllocator.

(* bitvector[i] *)
Definition read (bitvector : list Z) (i : Z) : outcome Z :=
  match bitvector !! Z.to_nat i with
  | Some b => Returned b
  | None => Fault OutOfBounds
  end.

(* bitvector[i] = v *)
Definition write (bitvector : list Z) (i v : Z) : outcome (list Z) :=
  match bitvector !! Z.to_nat i with
  | Some _ => Returned (<[Z.to_nat i := v]> bitvector)
  | None => Fault OutOfBounds
  end.

(* unsigned int i = 0; while (bitvector[i] == 0xFF) i += 1; *)
Fixpoint skip_full (fuel : nat) (bitvector : list Z) (i : Z) : outcome Z :=
  match fuel with
  | O => Fault OutOfFuel
  | S fuel' =>
      b <-- read bitvector i ;;
      if b =? 0xFF then skip_full fuel' bitvector (uint (i + 1))
      else Returned i
  end.

(* register unsigned char mask = 0x80; CIFS_INDEX_TYPE j = 0;
   while (bitvector[i] & mask) { mask >>= 1; ++j; } *)
Fixpoint scan_bits (fuel : nat) (b mask j : Z) : outcome Z :=
  match fuel with
  | O => Fault OutOfFuel
  | S fuel' =>
      if Z.land b mask =? 0 then Returned j
      else scan_bits fuel' b (uchar (Z.shiftr mask 1)) (ushort (j + 1))
  end.

(* The first loop takes at most one step per byte of the vector and one
   more for the read that leaves it; the second stops at the latest when
   the eight shifts have emptied [mask]. *)
Definition cifsFindFreeBlock (bitvector : list Z) : outcome Z :=
  i <-- skip_full (S (length bitvector)) bitvector 0 ;;
  b <-- read bitvector i ;;
  j <-- scan_bits 9 b 0x80 0 ;;
  Returned (ushort (uint (uint (i * 8) + j))).

Definition cifsFlipBit (bitvector : list Z) (bitIndex : Z) : outcome (list Z) :=
  let blockIndex := ushort (bitIndex / 8) in
  let bitShift := ushort (bitIndex mod 8) in
  let mask := 0x80 in
  b <-- read bitvector blockIndex ;;
  write bitvector blockIndex (uchar (Z.lxor b (Z.shiftr mask bitShift))).

Definition cifsSetBit (bitvector : list Z) (bitIndex : Z) : outcome (list Z) :=
  let blockIndex := ushort (bitIndex / 8) in
  let bitShift := ushort (bitIndex mod 8) in
  let mask := 0x80 in
  b <-- read bitvector blockIndex ;;
  write bitvector blockIndex (uchar (Z.lor b (Z.shiftr mask bitShift))).

Definition cifsClearBit (bitvector : list Z) (bitIndex : Z) : outcome (list Z) :=
  let blockIndex := ushort (bitIndex / 8) in
  let bitShift := ushort (bitIndex mod 8) in
  let mask := 0x80 in
  b <-- read bitvector blockIndex ;;
  write bitvector blockIndex (uchar (Z.land b (Z.lnot (Z.shiftr mask bitShift)))).

(** Vocabulary of the specification, most significant bit first. *)

(* bit [i] of the vector: bit [7 - i mod 8] of byte [i / 8] *)
Definition bit_is_set (bitvector : list Z) (i : Z) : bool :=
  match bitvector !! Z.to_nat (i / 8) with
  | Some b => Z.testbit b (7 - i mod 8)
  | None => false
  end.

(* [i] is the least byte index whose byte differs from 0xFF *)
Definition first_free_byte (bitvector : list Z) (i : nat) (b : Z) : Prop :=
  bitvector !! i = Some b /\ b <> 0xFF /\
  forall k, (k < i)%nat -> bitvector !! k = Some 0xFF.

(* [j] is the least position, counted from the most significant bit,
   at which byte [b] holds 0 *)
Definition first_zero_bit (b j : Z) : Prop :=
  0 <= j < 8 /\ Z.testbit b (7 - j) = false /\
  forall k, 0 <= k < j -> Z.testbit b (7 - k) = true.

Definition all_set (bitvector : list Z) : Prop :=
  Forall (fun b => b = 0xFF) bitvector.

Definition has_free_bit (bitvector : list Z) : Prop :=
  exists i b, bitvector !! i = Some b /\ b <> 0xFF.

(* a vector of bytes whose bit indices all fit CIFS_INDEX_TYPE *)
Definition indexable (bitvector : list Z) : Prop :=
  Forall is_uchar bitvector /\ Z.of_nat (length bitvector) <= 8192.

End BitAllocator.
Import BitAllocator.

(** ** The name hash of the registry *)

Module Registry.

(* register unsigned long hash = 5381; register unsigned char c;
   while ((c = *str++) != '\0') hash = ((hash << 5) + hash) ^ c;
   The end of the Rocq string stands for the terminating '\0'; a zero
   character inside it ends the loop as well. [unsigned long] has 64 bits. *)
Fixpoint hash_loop (str : string) (hash : Z) : Z :=
  match str with
  | EmptyString => hash
  | String a str' =>
      let c := uchar (Z.of_N (N_of_ascii a)) in
      if c =? 0 then hash
      else hash_loop str' (ulong (Z.lxor (ulong (ulong (Z.shiftl hash 5) + hash)) c))
  end.

Definition hash (str : string) : Z :=
  ulong (hash_loop str 5381 mod CIFS_REGISTRY_SIZE).

End Registry.

(** ** The volume, the in-memory context and the file-system calls *)

Module Engine.

Record CIFS_SUPERBLOCK_TYPE : Type := {
  cifsNextUniqueIdentifier : Z;
  cifsNumberOfBlocks : Z;
  cifsDataBlockSize : Z;
  cifsRootNodeIndex : Z
}.

(* [parent_block_ref] and [file_block_ref] are [None] while no statement
   has assigned them. *)
Record CIFS_FILE_DESCRIPTOR_TYPE : Type := {
  identifier : Z;
  type : CIFS_CONTENT_TYPE;
  name : string;
  creationTime : Z;
  lastAccessTime : Z;
  lastModificationTime : Z;
  accessRights : Z;
  owner : Z;
  size : Z;
  block_ref : Z;
  parent_block_ref : option Z;
  file_block_ref : option Z
}.

(* struct cifs_block_type: the tag and the union it discriminates *)
Inductive block_content : Type :=
| fileDescriptor (fd : CIFS_FILE_DESCRIPTOR_TYPE)
| data (bytes : list Z)
| index (refs : list Z).

Record CIFS_BLOCK_TYPE : Type := {
  block_type : CIFS_CONTENT_TYPE;
  content : block_content
}.

(* What one block of the volume holds: the calls write a superblock, a
   [CIFS_BLOCK_TYPE] or a plain buffer of bytes. *)
Inductive block_image : Type :=
| SuperblockImage (sb : CIFS_SUPERBLOCK_TYPE)
| BlockImage (b : CIFS_BLOCK_TYPE)
| RawImage (bytes : list Z).

Record CIFS_REGISTRY_ENTRY_TYPE : Type := {
  entryDescriptor : CIFS_FILE_DESCRIPTOR_TYPE;
  parentFileHandle : Z;
  referenceCount : Z
}.

Record OPEN_FILE_TYPE : Type := {
  openIdentifier : Z;
  fileHandle : Z;
  processAccessRights : Z
}.

Record CIFS_PROCESS_CONTROL_BLOCK_TYPE : Type := {
  pcb_pid : Z;
  openFiles : list OPEN_FILE_TYPE
}.

(* [registry] and [processList] are pointers; they are [None] while no
   statement has made them point to a table or a list. The registry maps a
   slot of the hash table to its conflict resolution list. *)
Record CIFS_CONTEXT_TYPE : Type := {
  superblock : CIFS_SUPERBLOCK_TYPE;
  bitvector : list Z;
  registry : option (gmap Z (list CIFS_REGISTRY_ENTRY_TYPE));
  processList : option (list CIFS_PROCESS_CONTROL_BLOCK_TYPE)
}.

Record fuse_context : Type := {
  uid : Z;
  gid : Z;
  pid : Z;
  umask : Z
}.

(* The globals of cifs.c and the file mode creation mask of the process. *)
Record world : Type := {
  cifsVolume : gmap Z block_image;
  cifsContext : option CIFS_CONTEXT_TYPE;
  process_umask : Z
}.

(* What a call obtains from its surroundings: the FUSE context, the
   seconds of [clock_gettime], whether [malloc] of the context and [fopen]
   succeed, and the indeterminate bytes of memory that [malloc] returns. *)
Record env : Type := {
  fuseContext : fuse_context;
  tv_sec : Z;
  malloc_ok : bool;
  fopen_ok : bool;
  fresh_memory : nat -> Z
}.

(* Two names in the body of cifsCreateFile that cifs.h declares neither as
   a value nor as a field: the value assigned to [freeBlk.type] and the
   superblock member [freeInBlk]. They are taken as given. *)
Record undeclared : Type := {
  CIFS_FILE_DESCRIPTOR_TYPE_value : CIFS_CONTENT_TYPE;
  freeInBlk_member : Z
}.

(* mode_t umask(mode_t mask): installs [mask & 0777], returns the old mask *)
Definition sys_umask (mask : Z) (w : world) : Z * world :=
  (process_umask w,
   {| cifsVolume := cifsVolume w; cifsContext := cifsContext w;
      process_umask := Z.land mask 511 |}).

(* memset(s, c, n) on an object of [length s] bytes *)
Definition memset (s : list Z) (c n : Z) : outcome (list Z) :=
  if Z.of_nat (length s) <? n then Fault OutOfBounds
  else Returned (replicate (Z.to_nat n) (uchar c) ++ drop (Z.to_nat n) s).

(* for (j = 0; j < len; j++) block[j] = bitvector[off + j]; *)
Definition copy_bytes (bv : list Z) (off len : Z) : outcome (list Z) :=
  if Z.of_nat (length bv) <? off + len then Fault OutOfBounds
  else Returned (take (Z.to_nat len) (drop (Z.to_nat off) bv)).

(* cifsWriteBlock: the block number is a CIFS_INDEX_TYPE. An I/O error
   ends the process and is not part of the model. The map holds the
   blocks that calls have written, under the type they were written
   with. The file itself has more blocks than that: fseek past its end
   followed by fwrite brings the blocks in between into existence, and
   they read as zeros ([block_of_volume] below is the file's view). *)
Definition cifsWriteBlock (vol : gmap Z block_image) (img : block_image)
    (blockNumber : Z) : gmap Z block_image :=
  <[ushort blockNumber := img]> vol.

(* (CIFS_SUPERBLOCK_TYPE* ) cifsReadBlock(blockNumber) *)
Definition cifsReadSuperblock (vol : gmap Z block_image) (blockNumber : Z)
  : outcome CIFS_SUPERBLOCK_TYPE :=
  match vol !! ushort blockNumber with
  | Some (SuperblockImage sb) => Returned sb
  | _ => Fault BadImage
  end.

(* for (int i = 0; i < CIFS_SUPERBLOCK_INDEX; i++) { copy; cifsWriteBlock(block, i); } *)
Fixpoint write_bitvector_blocks (n : nat) (i : Z) (bv : list Z)
    (vol : gmap Z block_image) : outcome (gmap Z block_image) :=
  match n with
  | O => Returned vol
  | S n' =>
      block <-- copy_bytes bv (i * CIFS_BLOCK_SIZE) CIFS_BLOCK_SIZE ;;
      write_bitvector_blocks n' (i + 1) bv (cifsWriteBlock vol (RawImage block) i)
  end.

Definition with_context (w : world) (c : option CIFS_CONTEXT_TYPE) : world :=
  {| cifsVolume := cifsVolume w; cifsContext := c; process_umask := process_umask w |}.

Definition with_superblock (c : CIFS_CONTEXT_TYPE) (sb : CIFS_SUPERBLOCK_TYPE)
  : CIFS_CONTEXT_TYPE :=
  {| superblock := sb; bitvector := bitvector c;
     registry := registry c; processList := processList c |}.

(* sb->cifsNextUniqueIdentifier++ : the value before, and the superblock after *)
Definition next_identifier (sb : CIFS_SUPERBLOCK_TYPE) : Z * CIFS_SUPERBLOCK_TYPE :=
  (cifsNextUniqueIdentifier sb,
   {| cifsNextUniqueIdentifier := ulong (cifsNextUniqueIdentifier sb + 1);
      cifsNumberOfBlocks := cifsNumberOfBlocks sb;
      cifsDataBlockSize := cifsDataBlockSize sb;
      cifsRootNodeIndex := cifsRootNodeIndex sb |}).

Definition empty_index : block_content :=
  index (replicate (Z.to_nat CIFS_INDEX_SIZE) (ushort CIFS_INVALID_INDEX)).

(* A failed [malloc] of the context or a failed [fopen] returns
   CIFS_ALLOC_ERROR with no usable context. The volume is opened with
   "w+", which empties it. The bitvector comes from [calloc], all zero. *)
Definition cifsCreateFileSystem (e : env) (w : world) : outcome (CIFS_ERROR * world) :=
  if negb (malloc_ok e) then Returned (CIFS_ALLOC_ERROR, with_context w None)
  else if negb (fopen_ok e) then Returned (CIFS_ALLOC_ERROR, with_context w None)
  else
    let bv := replicate (Z.to_nat (CIFS_NUMBER_OF_BLOCKS / 8)) 0 in
    bv <-- memset bv 0xFF (CIFS_SUPERBLOCK_INDEX / 8) ;;
    let sb := {| cifsNextUniqueIdentifier := CIFS_INITIAL_VALUE_OF_THE_UNIQUE_FILE_IDENTIFIER;
                 cifsNumberOfBlocks := ushort (CIFS_NUMBER_OF_BLOCKS - 1);
                 cifsDataBlockSize := ushort CIFS_BLOCK_SIZE;
                 cifsRootNodeIndex := ushort (CIFS_SUPERBLOCK_INDEX + 1) |} in
    bv <-- cifsSetBit bv (ushort CIFS_SUPERBLOCK_INDEX) ;;
    let '(rootIdentifier, sb) := next_identifier sb in
    let '(oldMask, w) := sys_umask (umask (fuseContext e)) w in
    let rootFolderBlock :=
      {| block_type := CIFS_FOLDER_CONTENT_TYPE;
         content := fileDescriptor
           {| identifier := rootIdentifier;
              type := CIFS_FOLDER_CONTENT_TYPE;
              name := "/";
              creationTime := tv_sec e;
              lastAccessTime := tv_sec e;
              lastModificationTime := tv_sec e;
              accessRights := oldMask;
              owner := uid (fuseContext e);
              size := 0;
              block_ref := ushort (cifsRootNodeIndex sb + 1);
              parent_block_ref := None;
              file_block_ref := None |} |} in
    let rootFolderIndexBlock :=
      {| block_type := CIFS_INDEX_CONTENT_TYPE; content := empty_index |} in
    let vol := cifsWriteBlock ∅ (BlockImage rootFolderBlock) (cifsRootNodeIndex sb) in
    bv <-- cifsSetBit bv (cifsRootNodeIndex sb) ;;
    let vol := cifsWriteBlock vol (BlockImage rootFolderIndexBlock) (cifsRootNodeIndex sb + 1) in
    bv <-- cifsSetBit bv (ushort (cifsRootNodeIndex sb + 1)) ;;
    let vol := cifsWriteBlock vol (SuperblockImage sb) CIFS_SUPERBLOCK_INDEX in
    vol <-- write_bitvector_blocks (Z.to_nat CIFS_SUPERBLOCK_INDEX) 0 bv vol ;;
    let vol := cifsWriteBlock vol (RawImage (replicate (Z.to_nat CIFS_BLOCK_SIZE) 0))
                 (CIFS_NUMBER_OF_BLOCKS - 1) in
    Returned (CIFS_NO_ERROR,
              {| cifsVolume := vol;
                 cifsContext := Some {| superblock := sb; bitvector := bv;
                                        registry := None; processList := None |};
                 process_umask := process_umask w |}).

(* void traverseDisk(CIFS_INDEX_TYPE* index, int size, char* path): empty body *)
Definition traverseDisk (w : world) (index : list Z) (size : Z) (path : string) : world := w.

(* void addToHashTable(long index, char* filePath, CIFS_FILE_DESCRIPTOR_TYPE* fd): empty body *)
Definition addToHashTable (w : world) (index : Z) (filePath : string)
    (fd : CIFS_FILE_DESCRIPTOR_TYPE) : world := w.

(* The context is allocated afresh; the superblock is read from the
   volume; the bitvector is fresh memory of cifsNumberOfBlocks / 8 bytes
   that nothing fills; the body ends there (the rest is two TODO
   comments), so no statement sets [registry] or [processList].
   These are the statements that follow the opening of the volume, for
   a call in which fopen has returned a stream; [cifsMountFileSystem_call]
   below puts the opening in front of them. *)
Definition cifsMountFileSystem (e : env) (w : world) : outcome (CIFS_ERROR * world) :=
  if negb (malloc_ok e) then Returned (CIFS_ALLOC_ERROR, with_context w None)
  else
    sb <-- cifsReadSuperblock (cifsVolume w) CIFS_SUPERBLOCK_INDEX ;;
    let bv := map (fresh_memory e) (seq 0 (Z.to_nat (cifsNumberOfBlocks sb / 8))) in
    Returned (CIFS_NO_ERROR,
              with_context w (Some {| superblock := sb; bitvector := bv;
                                      registry := None; processList := None |})).

(* A call of cifsMountFileSystem from its first statements,
     cifsVolume = fopen(cifsFileName, "rw+");
     cifsCheckIOError("OPEN", "fopen");
   cifsCheckIOError hands the stream to ferror: with the NULL stream of a
   failed fopen the process ends there, before the context is allocated.
   With a stream the call goes on to the allocation of the context. *)
Definition cifsMountFileSystem_call (e : env) (w : world) : outcome (CIFS_ERROR * world) :=
  if negb (fopen_ok e) then Fault NullStream
  else cifsMountFileSystem e w.

(* What a call of cifsCreateFile leaves behind: its return value, the
   globals, and the two blocks it builds in local variables. *)
Record create_result : Type := {
  create_error : CIFS_ERROR;
  create_world : world;
  freeBlk : CIFS_BLOCK_TYPE;
  freeInBlk : CIFS_BLOCK_TYPE
}.

(* The body of the function, which ends at its [return CIFS_NO_ERROR]
   (cifs.c 327-355). Neither argument is read. The counter is incremented
   in the superblock the context points to; the last statement then makes
   the context point to a copy of the superblock read from the volume.
   Neither local block is written: the calls that would find free blocks
   and write them stand after the closing brace, outside any function. *)
Definition cifsCreateFile (u : undeclared) (e : env) (w : world)
    (filePath : string) (type_ : CIFS_CONTENT_TYPE) : outcome create_result :=
  match cifsContext w with
  | None => Fault NullContext
  | Some ctx =>
      let '(newIdentifier, sb) := next_identifier (superblock ctx) in
      let ctx := with_superblock ctx sb in
      let '(oldMask, w) := sys_umask (umask (fuseContext e)) w in
      let blk :=
        {| block_type := CIFS_FILE_DESCRIPTOR_TYPE_value u;
           content := fileDescriptor
             {| identifier := newIdentifier;
                type := CIFS_FILE_CONTENT_TYPE;
                name := "file1";
                creationTime := tv_sec e;
                lastAccessTime := tv_sec e;
                lastModificationTime := tv_sec e;
                accessRights := oldMask;
                owner := uid (fuseContext e);
                size := 0;
                block_ref := ushort (freeInBlk_member u + 1);
                parent_block_ref := None;
                file_block_ref := None |} |} in
      let inBlk := {| block_type := CIFS_INDEX_CONTENT_TYPE; content := empty_index |} in
      sb <-- cifsReadSuperblock (cifsVolume w) CIFS_SUPERBLOCK_INDEX ;;
      Returned {| create_error := CIFS_NO_ERROR;
                  create_world := with_context w (Some (with_superblock ctx sb));
                  freeBlk := blk;
                  freeInBlk := inBlk |}
  end.

(* CIFS_ERROR cifsOpenFile(...): the body is [return CIFS_NO_ERROR] *)
Definition cifsOpenFile (w : world) (filePath : string) (desiredAccessRights : Z)
  : CIFS_ERROR * world := (CIFS_NO_ERROR, w).

(* CIFS_ERROR cifsWriteFile(...): the body is [return CIFS_NO_ERROR] *)
Definition cifsWriteFile (w : world) (fileHandle : Z) (writeBuffer : string)
  : CIFS_ERROR * world := (CIFS_NO_ERROR, w).

(** Vocabulary of the specification *)

(* the descriptor a block holds, if it holds one *)
Definition descriptor_of (b : CIFS_BLOCK_TYPE) : option CIFS_FILE_DESCRIPTOR_TYPE :=
  match content b with
  | fileDescriptor fd => Some fd
  | _ => None
  end.

(* the descriptors present on the volume, by block number *)
Definition volume_descriptor (vol : gmap Z block_image) (blockNumber : Z)
  : option CIFS_FILE_DESCRIPTOR_TYPE :=
  match vol !! blockNumber with
  | Some (BlockImage b) => descriptor_of b
  | _ => None
  end.

(* the entries of the registry; a registry that was never set up has none *)
Definition registry_entries (c : CIFS_CONTEXT_TYPE) : list CIFS_REGISTRY_ENTRY_TYPE :=
  match registry c with
  | Some table => concat (snd <$> map_to_list table)
  | None => []
  end.

(* process [p] has the file or folder with identifier [ident] open *)
Definition open_by (c : CIFS_CONTEXT_TYPE) (p ident : Z) : Prop :=
  exists pl pcb f,
    processList c = Some pl /\ In pcb pl /\ pcb_pid pcb = p /\
    In f (openFiles pcb) /\ openIdentifier f = ident.

(* the blocks that are free according to the bitvector *)
Definition free_blocks (bv : list Z) : Z :=
  Z.of_nat (length (filter (fun i => bit_is_set bv (Z.of_nat i) = false)
                           (seq 0 (8 * length bv)))).

(* the data blocks a content of [len] bytes occupies *)
Definition blocks_needed (len : Z) : Z :=
  (len + CIFS_DATA_SIZE - 1) / CIFS_DATA_SIZE.

(* a sequence of create operations: the worlds are threaded through, the
   descriptor blocks built by the calls are collected in order *)
Fixpoint create_files (u : undeclared) (e : env) (w : world)
    (requests : list (string * CIFS_CONTENT_TYPE))
  : outcome (list CIFS_BLOCK_TYPE * world) :=
  match requests with
  | [] => Returned ([], w)
  | (filePath, type_) :: rest =>
      r <-- cifsCreateFile u e w filePath type_ ;;
      rs <-- create_files u e (create_world r) rest ;;
      Returned (freeBlk r :: fst rs, snd rs)
  end.

(* format, then mount *)
Definition create_and_mount (e : env) (w : world) : outcome world :=
  r <-- cifsCreateFileSystem e w ;;
  r <-- cifsMountFileSystem_call e (snd r) ;;
  Returned (snd r).

End Engine.

Import Registry Engine.

(** ** Auxiliary definitions of the proofs and the inputs of the examples *)

(* The shape the three bit operations share: a read of the byte at
   blockIndex, then a write to the same byte of a value computed by [f]
   from the byte read and bitShift. *)
Definition read_modify_write (f : Z -> Z -> Z) (bv : list Z) (bitIndex : Z)
  : outcome (list Z) :=
  b <-- read bv (ushort (bitIndex / 8)) ;;
  write bv (ushort (bitIndex / 8)) (f b (ushort (bitIndex mod 8))).

(* The in-memory bitvector that cifsCreateFileSystem leaves behind. *)
Definition formatted_bitvector : list Z :=
  [0xFF; 0xFF; 0xFF; 0x01; 0xC0] ++ replicate (Z.to_nat 8186) 0.

(* The superblock that cifsCreateFileSystem writes to the volume: the
   counter has already been advanced past the identifier of the root. *)
Definition formatted_superblock : CIFS_SUPERBLOCK_TYPE :=
  {| cifsNextUniqueIdentifier := 1; cifsNumberOfBlocks := 65534;
     cifsDataBlockSize := 256; cifsRootNodeIndex := 32 |}.

Definition formatted_context : CIFS_CONTEXT_TYPE :=
  {| superblock := formatted_superblock; bitvector := formatted_bitvector;
     registry := None; processList := None |}.

(* The descriptor of the root folder that cifsCreateFileSystem writes. *)
Definition root_descriptor (e : env) (w : world) : CIFS_FILE_DESCRIPTOR_TYPE :=
  {| identifier := 0;
     type := CIFS_FOLDER_CONTENT_TYPE;
     name := "/";
     creationTime := tv_sec e;
     lastAccessTime := tv_sec e;
     lastModificationTime := tv_sec e;
     accessRights := process_umask w;
     owner := uid (fuseContext e);
     size := 0;
     block_ref := 33;
     parent_block_ref := None;
     file_block_ref := None |}.

(* The context that cifsMountFileSystem builds from the superblock [sb] of
   the volume: a bitvector of fresh memory, neither a registry nor a
   process list. *)
Definition mounted_context (e : env) (sb : CIFS_SUPERBLOCK_TYPE) : CIFS_CONTEXT_TYPE :=
  {| superblock := sb;
     bitvector := map (fresh_memory e) (seq 0 (Z.to_nat (cifsNumberOfBlocks sb / 8)));
     registry := None;
     processList := None |}.

(* Which bits cifsCreateFileSystem sets: those of blocks 0..23 and of the
   superblock, the root descriptor and the root index (blocks 31..33). *)
Definition set_by_format (i : Z) : bool :=
  (i <? 24) || ((31 <=? i) && (i <=? 33)).

(* The surroundings test_cifs.c sets up: a user and a process numbered
   1001, umask S_IRUSR | S_IWUSR, every allocation succeeding. *)
Definition test_env : env :=
  {| fuseContext := {| uid := 1001; gid := 1001; pid := 1001; umask := 384 |};
     tv_sec := 0;
     malloc_ok := true;
     fopen_ok := true;
     fresh_memory := fun _ => 0 |}.

(* Before the first call: no volume contents, no context. *)
Definition initial_world : world :=
  {| cifsVolume := ∅; cifsContext := None; process_umask := 18 |}.

Definition test_undeclared : undeclared :=
  {| CIFS_FILE_DESCRIPTOR_TYPE_value := CIFS_FILE_CONTENT_TYPE; freeInBlk_member := 0 |}.

(* A mounted context whose bitvector has no free bit left. *)
Definition full_context : CIFS_CONTEXT_TYPE :=
  {| superblock := {| cifsNextUniqueIdentifier := 1; cifsNumberOfBlocks := 16;
                      cifsDataBlockSize := 256; cifsRootNodeIndex := 1 |};
     bitvector := [0xFF; 0xFF];
     registry := None;
     processList := None |}.

Definition full_world : world :=
  {| cifsVolume := ∅; cifsContext := Some full_context; process_umask := 18 |}.

(** ** The remaining code of the repository *)

(** *** The bit operations, bit by bit *)

Module BitEffect.

(* What each operation computes for the byte it rewrites, from the byte
   read and bitShift. *)
Definition set_byte (b s : Z) : Z := uchar (Z.lor b (Z.shiftr 0x80 s)).
Definition clear_byte (b s : Z) : Z := uchar (Z.land b (Z.lnot (Z.shiftr 0x80 s))).
Definition flip_byte (b s : Z) : Z := uchar (Z.lxor b (Z.shiftr 0x80 s)).

(* [f] changes bit [7 - s] of a byte by [upd] and keeps the other seven *)
Definition updates_bit (f : Z -> Z -> Z) (upd : bool -> bool) : Prop :=
  forall b s t, 0 <= s < 8 -> 0 <= t < 8 ->
    Z.testbit (f b s) t = if t =? 7 - s then upd (Z.testbit b t) else Z.testbit b t.

(* every bit below [r] is set *)
Definition all_set_below (bv : list Z) (r : Z) : Prop :=
  forall k, 0 <= k < r -> bit_is_set bv k = true.

End BitEffect.
Import BitEffect.

(** *** Strings given to hash *)

(* no character of the string is the zero character *)
Fixpoint nul_free (str : string) : bool :=
  match str with
  | EmptyString => true
  | String a str' => negb (Ascii.eqb a Ascii.zero) && nul_free str'
  end.

(** *** The block device: cifsWriteBlock / cifsReadBlock of cifs.c and
    writeBlock / cifsReadBlock of blockVolume.c, byte by byte *)

Module BlockStore.

(* fseek(volume, off, SEEK_SET) followed by fwrite of [bytes]: the bytes
   replace those at [off ..]; a position past the end of the file leaves a
   gap, which reads as zero. *)
Definition pwrite (file : list Z) (off : nat) (bytes : list Z) : list Z :=
  take off file ++ replicate (off - length file) 0 ++ bytes ++
  drop (off + length bytes) file.

(* fseek(volume, off, SEEK_SET) followed by fread of at most [n] bytes:
   the bytes obtained, fewer than [n] at the end of the file *)
Definition pread (file : list Z) (off n : nat) : list Z :=
  take n (drop off file).

(* size_t writeBlock(unsigned char* content, BLOCK_REFERENCE_TYPE blockNumber)
   for a block size [BLOCK_SIZE] (16 in blockVolume.c, CIFS_BLOCK_SIZE in
   cifs.c): BLOCK_SIZE bytes are taken from [content]; the result is the
   count that fwrite returns and the file. An I/O error ends the process. *)
Definition writeBlock (BLOCK_SIZE : Z) (volume content : list Z) (blockNumber : Z)
  : outcome (Z * list Z) :=
  if Z.of_nat (length content) <? BLOCK_SIZE then Fault OutOfBounds
  else
    let bytes := take (Z.to_nat BLOCK_SIZE) content in
    Returned (Z.of_nat (length bytes),
              pwrite volume (Z.to_nat (ushort blockNumber * BLOCK_SIZE)) bytes).

(* unsigned char* cifsReadBlock(BLOCK_REFERENCE_TYPE blockNumber): a fresh
   buffer of BLOCK_SIZE bytes, whose first [len] bytes fread fills; the
   result is [len] (which the function prints) and the buffer. *)
Definition cifsReadBlock (BLOCK_SIZE : Z) (fresh : nat -> Z) (volume : list Z)
    (blockNumber : Z) : Z * list Z :=
  let got := pread volume (Z.to_nat (ushort blockNumber * BLOCK_SIZE))
                   (Z.to_nat BLOCK_SIZE) in
  (Z.of_nat (length got),
   got ++ map fresh (seq (length got) (Z.to_nat BLOCK_SIZE - length got))).

(* for (i = first; ...; i++) writeBlock(buf_i, i): the blocks of [contents]
   written one after the other, as the first loop of main in blockVolume.c
   does from block 0 *)
Fixpoint write_blocks (BLOCK_SIZE : Z) (volume : list Z) (contents : list (list Z))
    (first : Z) : outcome (list Z) :=
  match contents with
  | [] => Returned volume
  | content :: rest =>
      r <-- writeBlock BLOCK_SIZE volume content first ;;
      write_blocks BLOCK_SIZE (snd r) rest (first + 1)
  end.

End BlockStore.

(** *** cifsGenerateContent *)

Module Content.

(* content[i] = v for a buffer obtained from malloc *)
Definition store (content : list Z) (i v : Z) : outcome (list Z) :=
  if i <? 0 then Fault OutOfBounds
  else match content !! Z.to_nat i with
       | Some _ => Returned (<[Z.to_nat i := v]> content)
       | None => Fault OutOfBounds
       end.

(* firstPrintable + rand() % len, with firstPrintable = ' ' = 32 and
   len = '~' - ' ' = 94. [rand_values k] is the value of the k-th call of
   rand(), which is never negative. *)
Definition printable (rand_values : nat -> N) (k : nat) : Z :=
  32 + Z.of_N (rand_values k) mod 94.

(* for (int i = 0; i < size - 1; i++)
     *(content + i) = firstPrintable + rand() % len;
   [k] counts the calls of rand() made so far. *)
Fixpoint fill (steps : nat) (rand_values : nat -> N) (k : nat) (i : Z)
    (content : list Z) : outcome (list Z * nat) :=
  match steps with
  | O => Returned (content, k)
  | S steps' =>
      content <-- store content i (printable rand_values k) ;;
      fill steps' rand_values (S k) (i + 1) content
  end.

(* char* cifsGenerateContent(int size): the buffer returned and the number
   of calls of rand() made so far. The buffer comes from malloc(size), its
   bytes are those of [fresh] until they are assigned. *)
Definition cifsGenerateContent (rand_values : nat -> N) (fresh : nat -> Z)
    (k : nat) (size : Z) : outcome (list Z * nat) :=
  let '(size, k) :=
    if size <=? 0 then (Z.of_N (rand_values k) mod 1000, S k) else (size, k) in
  let content := map fresh (seq 0 (Z.to_nat size)) in
  r <-- fill (Z.to_nat (size - 1)) rand_values k 0 content ;;
  content <-- store (fst r) (size - 1) 0 ;;
  Returned (content, snd r).

(* the bytes of a C string held in a buffer: those before the first zero *)
Fixpoint c_string (buffer : list Z) : list Z :=
  match buffer with
  | [] => []
  | c :: rest => if c =? 0 then [] else c :: c_string rest
  end.

End Content.

(** *** cifsUmountFileSystem and what a formatted volume holds *)

(* The superblock of the context is written to its block, the volume is
   flushed and closed, and the context is released: no usable context is
   left. (The statements under NO_FUSE_DEBUG release the simulated FUSE
   context, which is no part of [world].) *)
Definition cifsUmountFileSystem (w : world) : outcome (CIFS_ERROR * world) :=
  match cifsContext w with
  | None => Fault NullContext
  | Some ctx =>
      Returned (CIFS_NO_ERROR,
                {| cifsVolume := cifsWriteBlock (cifsVolume w)
                                   (SuperblockImage (superblock ctx))
                                   CIFS_SUPERBLOCK_INDEX;
                   cifsContext := None;
                   process_umask := process_umask w |})
  end.

(* The index block of the root folder that cifsCreateFileSystem writes. *)
Definition root_index_block : CIFS_BLOCK_TYPE :=
  {| block_type := CIFS_INDEX_CONTENT_TYPE; content := empty_index |}.

(* The blocks of the bitvector region as cifsCreateFileSystem writes them:
   block [i] holds bytes [256 i .. 256 i + 255] of the bitvector. *)
Definition bitvector_block (bv : list Z) (i : Z) : block_image :=
  RawImage (take (Z.to_nat CIFS_BLOCK_SIZE) (drop (Z.to_nat (i * CIFS_BLOCK_SIZE)) bv)).

(* The volume that cifsCreateFileSystem leaves behind. *)
Definition formatted_volume (e : env) (w : world) : gmap Z block_image :=
  <[CIFS_NUMBER_OF_BLOCKS - 1 := RawImage (replicate (Z.to_nat CIFS_BLOCK_SIZE) 0)]>
    (foldr (fun i vol => <[Z.of_nat i := bitvector_block formatted_bitvector (Z.of_nat i)]> vol)
       (<[31 := SuperblockImage formatted_superblock]>
          (<[33 := BlockImage root_index_block]>
             (<[32 := BlockImage {| block_type := CIFS_FOLDER_CONTENT_TYPE;
                                    content := fileDescriptor (root_descriptor e w) |}]> ∅)))
       (seq 0 31)).

(* The globals after a successful cifsCreateFileSystem. *)
Definition formatted_world (e : env) (w : world) : world :=
  {| cifsVolume := formatted_volume e w;
     cifsContext := Some formatted_context;
     process_umask := Z.land (umask (fuseContext e)) 511 |}.

(* the block numbers that calls of cifsWriteBlock have written *)
Definition written_blocks (vol : gmap Z block_image) : list Z :=
  fst <$> map_to_list vol.

(* the number of blocks of the volume file: it ends with the highest
   block written *)
Definition volume_blocks (vol : gmap Z block_image) : Z :=
  foldr (fun n m => Z.max (n + 1) m) 0 (written_blocks vol).

(* Block [n] as the file holds it: cifsWriteBlock seeks to the block and
   writes it, and a write past the end of the file brings the blocks in
   between into existence; until a call writes them they read as zeros. *)
Definition block_of_volume (vol : gmap Z block_image) (n : Z) : option block_image :=
  match vol !! n with
  | Some img => Some img
  | None =>
      if (0 <=? n) && (n <? volume_blocks vol)
      then Some (RawImage (replicate (Z.to_nat CIFS_BLOCK_SIZE) 0))
      else None
  end.



(* a session after formatting: mount, a sequence of create operations,
   unmount *)
Definition session (u : undeclared) (e : env) (w : world)
    (requests : list (string * CIFS_CONTENT_TYPE)) : outcome world :=
  r <-- cifsMountFileSystem_call e w ;;
  rs <-- create_files u e (snd r) requests ;;
  r <-- cifsUmountFileSystem (snd rs) ;;
  Returned (snd r).

(** ** Bits of a byte *)

Section ByteBits.

Lemma land_pow2 (b k : Z) :
  0 <= k -> Z.land b (2 ^ k) = if Z.testbit b k then 2 ^ k else 0.
Proof.
  intros Hk. apply Z.bits_inj'. intros n Hn.
  rewrite Z.land_spec, Z.pow2_bits_eqb by lia.
  destruct (Z.eqb_spec k n) as [->|Hne].
  - destruct (Z.testbit b n) eqn:E; simpl.
    + now rewrite Z.pow2_bits_true by lia.
    + now rewrite Z.bits_0.
  - rewrite andb_false_r.
    destruct (Z.testbit b k).
    + rewrite Z.pow2_bits_false by lia. reflexivity.
    + now rewrite Z.bits_0.
Qed.

Lemma mask_pow2 (j : Z) : 0 <= j < 8 -> Z.shiftr 0x80 j = 2 ^ (7 - j).
Proof.
  intros Hj. rewrite Z.shiftr_div_pow2 by lia.
  change 128 with (2 ^ 7). 
  replace 7 with ((7 - j) + j) at 1 by lia.
  rewrite Z.pow_add_r by lia. apply Z.div_mul. 
  apply Z.pow_nonzero; lia.
Qed.

Lemma mask_empty (j : Z) : 8 <= j -> Z.shiftr 0x80 j = 0.
Proof.
  intros Hj. rewrite Z.shiftr_div_pow2 by lia. apply Z.div_small.
  split; [lia|]. change 128 with (2 ^ 7). apply Z.pow_lt_mono_r; lia.
Qed.

Lemma land_mask (b j : Z) :
  0 <= j < 8 -> (Z.land b (Z.shiftr 0x80 j) =? 0) = negb (Z.testbit b (7 - j)).
Proof.
  intros Hj. rewrite mask_pow2, land_pow2 by lia.
  destruct (Z.testbit b (7 - j)); simpl.
  - apply Z.eqb_neq. apply Z.pow_nonzero; lia.
  - reflexivity.
Qed.

Lemma uchar_all_ones (b : Z) :
  is_uchar b -> (forall k, 0 <= k < 8 -> Z.testbit b k = true) -> b = 0xFF.
Proof.
  intros Hb Hall. apply Z.bits_inj'. intros n Hn.
  change 255 with (Z.ones 8).
  destruct (Z.lt_ge_cases n 8) as [Hlt|Hge].
  - rewrite Hall, Z.ones_spec_low by lia. reflexivity.
  - rewrite Z.ones_spec_high by lia.
    rewrite <- (Z.mod_small b (2 ^ 8)) by exact Hb.
    apply Z.mod_pow2_bits_high. lia.
Qed.

Lemma uchar_range (z : Z) : is_uchar (uchar z).
Proof. unfold is_uchar, uchar, wrap. apply Z.mod_pos_bound. reflexivity. Qed.

Lemma uchar_testbit (z k : Z) : 0 <= k < 8 -> Z.testbit (uchar z) k = Z.testbit z k.
Proof. intros Hk. unfold uchar, wrap. apply Z.mod_pow2_bits_low. lia. Qed.

Lemma wrap_small (bits z : Z) : 0 <= z < 2 ^ bits -> wrap bits z = z.
Proof. intros H. unfold wrap. now apply Z.mod_small. Qed.

End ByteBits.

(** ** The two loops of cifsFindFreeBlock *)

Section FindFree.

Lemma scan_bits_from (b : Z) (fuel : nat) :
  forall n, 0 <= n <= 8 -> 8 - n < Z.of_nat fuel ->
  exists j, scan_bits fuel b (Z.shiftr 0x80 n) n = Returned j /\
            n <= j <= 8 /\
            Z.land b (Z.shiftr 0x80 j) = 0 /\
            forall k, n <= k < j -> Z.land b (Z.shiftr 0x80 k) <> 0.
Proof.
  induction fuel as [|fuel IH]; intros n Hn Hfuel; [lia|].
  cbn [scan_bits].
  destruct (Z.eqb_spec (Z.land b (Z.shiftr 128 n)) 0) as [Hz|Hnz].
  - exists n. repeat split; try lia; auto.
  - assert (n < 8) as Hlt.
    { destruct (Z.lt_ge_cases n 8); [assumption|].
      rewrite mask_empty, Z.land_0_r in Hnz by lia. congruence. }
    assert (uchar (Z.shiftr (Z.shiftr 128 n) 1) = Z.shiftr 128 (n + 1)) as ->.
    { rewrite Z.shiftr_shiftr by lia. apply wrap_small.
      destruct (Z.eq_dec n 7) as [->|]; [split; [discriminate|reflexivity]|].
      rewrite mask_pow2 by lia. split.
      - apply Z.pow_nonneg. lia.
      - apply Z.pow_lt_mono_r; lia. }
    unfold ushort. rewrite (wrap_small 16 (n + 1)) by (change (2 ^ 16) with 65536; lia).
    destruct (IH (n + 1)) as (j & Hj & Hrange & Hzero & Hones); [lia|lia|].
    exists j. repeat split; try lia; auto.
    intros k Hk. destruct (Z.eq_dec k n) as [->|]; [assumption|].
    apply Hones. lia.
Qed.

Lemma scan_bits_first_zero (b : Z) :
  is_uchar b -> b <> 0xFF ->
  exists j, scan_bits 9 b 0x80 0 = Returned j /\ first_zero_bit b j.
Proof.
  intros Hb Hne.
  destruct (scan_bits_from b 9 0) as (j & Hj & Hrange & Hzero & Hones); [lia|lia|].
  exists j. split; [exact Hj|].
  assert (forall k, 0 <= k < j -> k < 8 -> Z.testbit b (7 - k) = true) as Hset.
  { intros k Hk Hk8. specialize (Hones k Hk).
    apply Z.eqb_neq in Hones. rewrite land_mask in Hones by lia.
    now destruct (Z.testbit b (7 - k)). }
  assert (j < 8) as Hlt.
  { destruct (Z.lt_ge_cases j 8); [assumption|]. exfalso. apply Hne.
    apply uchar_all_ones; [assumption|].
    intros k Hk. replace k with (7 - (7 - k)) by lia. apply Hset; lia. }
  repeat split; try lia.
  - apply Z.eqb_eq in Hzero. rewrite land_mask in Hzero by lia.
    now destruct (Z.testbit b (7 - j)).
  - intros k Hk. apply Hset; lia.
Qed.

Lemma skip_full_from (bv : list Z) (fuel : nat) :
  Z.of_nat (length bv) < 2 ^ 32 ->
  forall i : nat,
    (i <= length bv)%nat -> (length bv - i < fuel)%nat ->
    (forall k, (k < i)%nat -> bv !! k = Some 0xFF) ->
    match skip_full fuel bv (Z.of_nat i) with
    | Returned r => exists (k : nat) b, r = Z.of_nat k /\ first_free_byte bv k b
    | Fault f => f = OutOfBounds /\ all_set bv
    end.
Proof.
  intros Hlen. induction fuel as [|fuel IH]; intros i Hi Hfuel Hfull; [lia|].
  cbn [skip_full]. unfold read. rewrite Nat2Z.id.
  destruct (bv !! i) as [b|] eqn:Hb; cbn [obind].
  - apply lookup_lt_Some in Hb as Hlt.
    destruct (Z.eqb_spec b 255) as [->|Hne].
    + unfold uint. rewrite wrap_small by lia.
      replace (Z.of_nat i + 1) with (Z.of_nat (S i)) by lia.
      apply IH; [lia|lia|].
      intros k Hk. destruct (Nat.eq_dec k i) as [->|]; [assumption|].
      apply Hfull. lia.
    + exists i, b. repeat split; auto.
  - split; [reflexivity|].
    apply lookup_ge_None in Hb.
    apply Forall_lookup. intros k x Hk.
    apply lookup_lt_Some in Hk as Hlt.
    rewrite Hfull in Hk by lia. congruence.
Qed.

End FindFree.

Section FindFreeResult.

Lemma index_conversions (i j : Z) :
  ushort (uint (uint (i * 8) + j)) = ushort (8 * i + j).
Proof.
  unfold ushort, uint, wrap.
  rewrite Z.add_mod_idemp_l by discriminate.
  rewrite Z.mod_mod_divide by (exists (2 ^ 16); reflexivity).
  f_equal. lia.
Qed.

Lemma free_byte_not_all_set (bv : list Z) (i : nat) (b : Z) :
  first_free_byte bv i b -> all_set bv -> False.
Proof.
  intros (Hb & Hne & _) Hall.
  apply Hne. exact (proj1 (Forall_lookup _ bv) Hall i b Hb).
Qed.

Lemma has_free_bit_first (bv : list Z) :
  has_free_bit bv -> ~ all_set bv.
Proof.
  intros (i & b & Hb & Hne) Hall.
  apply Hne. exact (proj1 (Forall_lookup _ bv) Hall i b Hb).
Qed.

(* What cifsFindFreeBlock returns on a vector of bytes with a free bit. *)
Lemma findFree_result (bv : list Z) :
  Forall is_uchar bv -> Z.of_nat (length bv) < 2 ^ 32 -> has_free_bit bv ->
  exists (i : nat) (b j : Z),
    first_free_byte bv i b /\ first_zero_bit b j /\
    cifsFindFreeBlock bv = Returned (ushort (8 * Z.of_nat i + j)).
Proof.
  intros Hbytes Hlen Hfree. unfold cifsFindFreeBlock.
  pose proof (skip_full_from bv (S (length bv)) Hlen 0%nat) as Hskip.
  change (Z.of_nat 0) with 0 in Hskip.
  destruct (skip_full (S (length bv)) bv 0) as [r|f].
  - destruct Hskip as (i & b & -> & Hfirst); [lia|lia|intros k Hk; lia|].
    exists i, b. destruct Hfirst as (Hb & Hne & Hbefore).
    assert (is_uchar b) as Hu by exact (proj1 (Forall_lookup _ bv) Hbytes i b Hb).
    destruct (scan_bits_first_zero b Hu Hne) as (j & Hj & Hzero).
    exists j. split; [repeat split; assumption|]. split; [assumption|].
    cbn [obind]. unfold read. rewrite Nat2Z.id, Hb. cbn [obind].
    rewrite Hj. cbn [obind]. now rewrite index_conversions.
  - destruct Hskip as (_ & Hall); [lia|lia|intros k Hk; lia|].
    now apply has_free_bit_first in Hfree.
Qed.

Lemma index_fits (bv : list Z) (i : nat) (b j : Z) :
  Z.of_nat (length bv) <= 8192 -> first_free_byte bv i b -> first_zero_bit b j ->
  ushort (8 * Z.of_nat i + j) = 8 * Z.of_nat i + j.
Proof.
  intros Hlen (Hb & _) (Hj & _). apply lookup_lt_Some in Hb.
  apply wrap_small. change (2 ^ 16) with 65536. lia.
Qed.

End FindFreeResult.

(* testSamples of test_cifs.c: flip bit 44 of six full bytes, clear bit 33,
   set it again; the free block found is 44, then 33, then 44. *)
Example testSamples_bitvector :
  (bv <-- cifsFlipBit [0xFF; 0xFF; 0xFF; 0xFF; 0xFF; 0xFF] 44 ;;
   first <-- cifsFindFreeBlock bv ;;
   bv <-- cifsClearBit bv 33 ;;
   second <-- cifsFindFreeBlock bv ;;
   bv <-- cifsSetBit bv 33 ;;
   third <-- cifsFindFreeBlock bv ;;
   Returned (first, second, third)) = Returned (44, 33, 44).
Proof. reflexivity. Qed.

(** C3. On a bitvector whose bytes all equal 0xFF, cifsFindFreeBlock does
    not fail with an allocation error: its first loop reads the byte after
    the last one of the vector, outside the object. *)
Theorem findFree_all_set_reads_past_end (bv : list Z) :
  Z.of_nat (length bv) < 2 ^ 32 -> all_set bv ->
  cifsFindFreeBlock bv = Fault OutOfBounds.
Proof.
  intros Hlen Hall. unfold cifsFindFreeBlock.
  pose proof (skip_full_from bv (S (length bv)) Hlen 0%nat) as Hskip.
  change (Z.of_nat 0) with 0 in Hskip.
  destruct (skip_full (S (length bv)) bv 0) as [r|f].
  - destruct Hskip as (i & b & _ & Hfirst); [lia|lia|intros k Hk; lia|].
    destruct (free_byte_not_all_set bv i b Hfirst Hall).
  - destruct Hskip as (-> & _); [lia|lia|intros k Hk; lia|]. reflexivity.
Qed.

Lemma findFree_all_set_reads_past_end_witness :
  let bv := [0xFF; 0xFF; 0xFF; 0xFF; 0xFF; 0xFF] in
  Z.of_nat (length bv) < 2 ^ 32 /\ all_set bv /\
  cifsFindFreeBlock bv = Fault OutOfBounds.
Proof.
  assert (all_set [0xFF; 0xFF; 0xFF; 0xFF; 0xFF; 0xFF]) as Hall by (repeat constructor).
  split; [reflexivity|]. split; [exact Hall|].
  apply findFree_all_set_reads_past_end; [reflexivity|exact Hall].
Defined.

(** C4. On a bitvector that has a byte different from 0xFF,
    cifsFindFreeBlock returns the block index 8 i + j, where i is the
    least index of a byte that is not 0xFF and j the least position, most
    significant bit first, at which that byte holds 0. A bitvector is an
    array of bytes that block indices of CIFS_INDEX_TYPE address: at most
    8192 bytes (the code allocates 8191). *)
Theorem findFree_first_zero_bit (bv : list Z) :
  indexable bv -> has_free_bit bv ->
  exists (i : nat) (b j : Z),
    first_free_byte bv i b /\ first_zero_bit b j /\
    cifsFindFreeBlock bv = Returned (8 * Z.of_nat i + j).
Proof.
  intros (Hbytes & Hlen) Hfree.
  destruct (findFree_result bv Hbytes) as (i & b & j & Hi & Hj & Hr);
    [change (2 ^ 32) with 4294967296; lia|assumption|].
  rewrite (index_fits bv i b j Hlen Hi Hj) in Hr.
  exists i, b, j. repeat split; try assumption; try apply Hi; try apply Hj.
Qed.

Lemma findFree_first_zero_bit_witness :
  let bv := [0xFF; 0xFF; 0xFF; 0xFF; 0xBF; 0xF7] in
  indexable bv /\ has_free_bit bv /\
  exists (i : nat) (b j : Z),
    first_free_byte bv i b /\ first_zero_bit b j /\
    cifsFindFreeBlock bv = Returned (8 * Z.of_nat i + j).
Proof.
  assert (indexable [0xFF; 0xFF; 0xFF; 0xFF; 0xBF; 0xF7]) as Hok.
  { split; [repeat constructor; unfold is_uchar; lia|simpl; lia]. }
  assert (has_free_bit [0xFF; 0xFF; 0xFF; 0xFF; 0xBF; 0xF7]) as Hfree
    by (exists 4%nat, 0xBF; split; [reflexivity|discriminate]).
  split; [exact Hok|]. split; [exact Hfree|].
  apply findFree_first_zero_bit; [exact Hok|exact Hfree].
Defined.

(** ** The three bit operations *)

Section BitOperations.

Lemma block_index_of (bitIndex : Z) :
  0 <= bitIndex < 65536 -> ushort (bitIndex / 8) = bitIndex / 8.
Proof.
  intros H. apply wrap_small. change (2 ^ 16) with 65536.
  split; [apply Z.div_pos; lia|].
  apply Z.div_lt_upper_bound; lia.
Qed.

Lemma bit_shift_of (bitIndex : Z) : ushort (bitIndex mod 8) = bitIndex mod 8.
Proof.
  apply wrap_small. change (2 ^ 16) with 65536.
  pose proof (Z.mod_pos_bound bitIndex 8). lia.
Qed.

(* bitvector[blockIndex] = v, seen from the vector *)
Lemma write_frame (bv : list Z) (i v : Z) :
  match write bv i v with
  | Returned bv' =>
      length bv' = length bv /\
      bv' !! Z.to_nat i = Some v /\
      forall k, k <> Z.to_nat i -> bv' !! k = bv !! k
  | Fault f => f = OutOfBounds /\ (length bv <= Z.to_nat i)%nat
  end.
Proof.
  unfold write. destruct (bv !! Z.to_nat i) as [b|] eqn:Hb.
  - apply lookup_lt_Some in Hb. split; [apply length_insert|]. split.
    + now apply list_lookup_insert_eq.
    + intros k Hk. now apply list_lookup_insert_ne.
  - split; [reflexivity|]. now apply lookup_ge_None.
Qed.

Lemma read_modify_write_frame (f : Z -> Z -> Z) (bv : list Z) (bitIndex : Z) :
  0 <= bitIndex < 65536 ->
  match read_modify_write f bv bitIndex with
  | Returned bv' =>
      length bv' = length bv /\
      forall k : nat, Z.of_nat k <> bitIndex / 8 -> bv' !! k = bv !! k
  | Fault f => f = OutOfBounds /\ Z.of_nat (length bv) <= bitIndex / 8
  end.
Proof.
  intros Hi. unfold read_modify_write. rewrite block_index_of by assumption.
  assert (0 <= bitIndex / 8) as Hnonneg by (apply Z.div_pos; lia).
  unfold read. destruct (bv !! Z.to_nat (bitIndex / 8)) as [b|] eqn:Hb; cbn [obind].
  - pose proof (write_frame bv (bitIndex / 8) (f b (ushort (bitIndex mod 8)))) as Hw.
    destruct (write bv (bitIndex / 8) _) as [bv'|flt].
    + destruct Hw as (Hlen & _ & Hother). split; [assumption|].
      intros k Hk. apply Hother. lia.
    + destruct Hw as (_ & Hge). apply lookup_lt_Some in Hb. lia.
  - split; [reflexivity|]. apply lookup_ge_None in Hb. lia.
Qed.

Lemma setBit_result (bv bv' : list Z) (bitIndex : Z) :
  0 <= bitIndex < 65536 -> cifsSetBit bv bitIndex = Returned bv' ->
  exists b,
    bv !! Z.to_nat (bitIndex / 8) = Some b /\
    bv' = <[Z.to_nat (bitIndex / 8) :=
              uchar (Z.lor b (Z.shiftr 0x80 (bitIndex mod 8)))]> bv.
Proof.
  intros Hi. unfold cifsSetBit, read, write.
  rewrite block_index_of, bit_shift_of by assumption.
  destruct (bv !! Z.to_nat (bitIndex / 8)) as [b|] eqn:Hb; cbn [obind];
    [|discriminate].
  intros [= <-]. now exists b.
Qed.

Lemma setBit_sets (bv bv' : list Z) (bitIndex : Z) :
  0 <= bitIndex < 65536 -> cifsSetBit bv bitIndex = Returned bv' ->
  bit_is_set bv' bitIndex = true.
Proof.
  intros Hi Hset.
  destruct (setBit_result bv bv' bitIndex Hi Hset) as (b & Hb & ->).
  apply lookup_lt_Some in Hb.
  unfold bit_is_set. rewrite list_lookup_insert_eq by assumption.
  pose proof (Z.mod_pos_bound bitIndex 8 eq_refl) as Hs.
  rewrite uchar_testbit, Z.lor_spec, Z.shiftr_spec by lia.
  replace (7 - bitIndex mod 8 + bitIndex mod 8) with 7 by lia.
  apply orb_true_r.
Qed.

Lemma setBit_indexable (bv bv' : list Z) (bitIndex : Z) :
  0 <= bitIndex < 65536 -> cifsSetBit bv bitIndex = Returned bv' ->
  Forall is_uchar bv -> Forall is_uchar bv' /\ length bv' = length bv.
Proof.
  intros Hi Hset Hbytes.
  destruct (setBit_result bv bv' bitIndex Hi Hset) as (b & Hb & ->).
  split; [|apply length_insert].
  apply Forall_insert; [assumption|apply uchar_range].
Qed.

Lemma returned_bit_is_clear (bv : list Z) (i : nat) (b j : Z) :
  first_free_byte bv i b -> first_zero_bit b j ->
  bit_is_set bv (8 * Z.of_nat i + j) = false.
Proof.
  intros (Hb & _) (Hj & Hzero & _). unfold bit_is_set.
  replace ((8 * Z.of_nat i + j) / 8) with (Z.of_nat i) by (apply Z.div_unique with j; lia).
  replace ((8 * Z.of_nat i + j) mod 8) with j by (apply Z.mod_unique with (Z.of_nat i); lia).
  rewrite Nat2Z.id, Hb. exact Hzero.
Qed.

End BitOperations.

(** C5. For a bitvector (bytes, at most 8192 of them: the bits that
    CIFS_INDEX_TYPE addresses) and a bit index i: when a free bit remains
    after cifsSetBit(bitvector, i), cifsFindFreeBlock on the updated
    vector returns an index different from i; bit i is set and the bit at
    the returned index is clear. *)
Theorem setBit_then_findFree (bv bv' : list Z) (i : Z) :
  indexable bv -> 0 <= i < 65536 ->
  cifsSetBit bv i = Returned bv' -> has_free_bit bv' ->
  exists r, cifsFindFreeBlock bv' = Returned r /\ r <> i /\
            bit_is_set bv' i = true /\ bit_is_set bv' r = false.
Proof.
  intros (Hbytes & Hlen) Hi Hset Hfree.
  destruct (setBit_indexable bv bv' i Hi Hset Hbytes) as (Hbytes' & Hlen').
  assert (Z.of_nat (length bv') <= 8192) as Hshort by lia.
  destruct (findFree_result bv' Hbytes') as (k & b & j & Hk & Hj & Hr);
    [change (2 ^ 32) with 4294967296; lia|assumption|].
  rewrite (index_fits bv' k b j Hshort Hk Hj) in Hr.
  pose proof (setBit_sets bv bv' i Hi Hset) as Hbit.
  pose proof (returned_bit_is_clear bv' k b j Hk Hj) as Hclear.
  exists (8 * Z.of_nat k + j). repeat split; try assumption.
  intros Heq. rewrite Heq in Hclear. congruence.
Qed.

Lemma setBit_then_findFree_witness :
  let bv := [0xFF; 0xFF; 0xFF; 0xFF; 0x7F; 0xF7] in
  let bv' := [0xFF; 0xFF; 0xFF; 0xFF; 0xFF; 0xF7] in
  indexable bv /\ 0 <= 32 < 65536 /\
  cifsSetBit bv 32 = Returned bv' /\ has_free_bit bv' /\
  exists r, cifsFindFreeBlock bv' = Returned r /\ r <> 32 /\
            bit_is_set bv' 32 = true /\ bit_is_set bv' r = false.
Proof.
  assert (indexable [0xFF; 0xFF; 0xFF; 0xFF; 0x7F; 0xF7]) as Hok.
  { split; [repeat constructor; unfold is_uchar; lia|simpl; lia]. }
  assert (has_free_bit [0xFF; 0xFF; 0xFF; 0xFF; 0xFF; 0xF7]) as Hfree
    by (exists 5%nat, 0xF7; split; [reflexivity|discriminate]).
  split; [exact Hok|]. split; [lia|]. split; [reflexivity|]. split; [exact Hfree|].
  apply (setBit_then_findFree [0xFF; 0xFF; 0xFF; 0xFF; 0x7F; 0xF7]);
    [exact Hok|lia|reflexivity|exact Hfree].
Defined.

(** C10. Each of cifsSetBit, cifsClearBit and cifsFlipBit, called with a
    bit index of CIFS_INDEX_TYPE, leaves the vector at its length and
    changes no byte other than the one at offset bitIndex / 8; when that
    offset lies beyond the vector the access is out of bounds and the call
    yields no vector at all. *)
Theorem bit_operations_frame (bv : list Z) (bitIndex : Z)
    (op : list Z -> Z -> outcome (list Z)) :
  0 <= bitIndex < 65536 ->
  In op [cifsSetBit; cifsClearBit; cifsFlipBit] ->
  match op bv bitIndex with
  | Returned bv' =>
      length bv' = length bv /\
      forall k : nat, Z.of_nat k <> bitIndex / 8 -> bv' !! k = bv !! k
  | Fault f => f = OutOfBounds /\ Z.of_nat (length bv) <= bitIndex / 8
  end.
Proof.
  intros Hi Hop. cbn [In] in Hop.
  destruct Hop as [<-|[<-|[<-|[]]]].
  - exact (read_modify_write_frame
             (fun b s => uchar (Z.lor b (Z.shiftr 0x80 s))) bv bitIndex Hi).
  - exact (read_modify_write_frame
             (fun b s => uchar (Z.land b (Z.lnot (Z.shiftr 0x80 s)))) bv bitIndex Hi).
  - exact (read_modify_write_frame
             (fun b s => uchar (Z.lxor b (Z.shiftr 0x80 s))) bv bitIndex Hi).
Qed.

Lemma bit_operations_frame_witness :
  let bv := [0xFF; 0x00; 0xF0] in
  0 <= 9 < 65536 /\
  (cifsSetBit bv 9 = Returned [0xFF; 0x40; 0xF0] /\
   cifsClearBit bv 2 = Returned [0xDF; 0x00; 0xF0] /\
   cifsFlipBit bv 23 = Returned [0xFF; 0x00; 0xF1]) /\
  match cifsSetBit bv 9 with
  | Returned bv' =>
      length bv' = length bv /\
      forall k : nat, Z.of_nat k <> 9 / 8 -> bv' !! k = bv !! k
  | Fault f => f = OutOfBounds /\ Z.of_nat (length bv) <= 9 / 8
  end.
Proof.
  split; [lia|]. split; [repeat split|].
  apply (bit_operations_frame [0xFF; 0x00; 0xF0] 9 cifsSetBit); [lia|].
  left. reflexivity.
Defined.

(** ** The name hash *)

(** C9. For every string, hash returns a value below CIFS_REGISTRY_SIZE
    (65537): the result is an index of a slot of the registry. *)
Theorem hash_below_registry_size (str : string) :
  0 <= hash str < CIFS_REGISTRY_SIZE.
Proof.
  unfold hash.
  pose proof (Z.mod_pos_bound (hash_loop str 5381) CIFS_REGISTRY_SIZE eq_refl) as Hslot.
  unfold ulong. rewrite wrap_small; [exact Hslot|].
  unfold CIFS_REGISTRY_SIZE in *. change (2 ^ 64) with 18446744073709551616. lia.
Qed.

(** ** Formatting a volume *)

Section Format.

Variables (e : env) (w : world).
Hypothesis Hmalloc : malloc_ok e = true.
Hypothesis Hfopen : fopen_ok e = true.

(* The call succeeds; the context, the superblock block, the root
   descriptor block and bitvector block 24 are as follows. *)
Lemma cifsCreateFileSystem_result :
  exists w',
    cifsCreateFileSystem e w = Returned (CIFS_NO_ERROR, w') /\
    cifsContext w' = Some formatted_context /\
    cifsVolume w' !! ushort CIFS_SUPERBLOCK_INDEX = Some (SuperblockImage formatted_superblock) /\
    volume_descriptor (cifsVolume w') 32 = Some (root_descriptor e w) /\
    cifsVolume w' !! 24 = Some (RawImage (replicate (Z.to_nat 256) 0)).
Proof.
  unfold cifsCreateFileSystem. rewrite Hmalloc, Hfopen. cbn [negb].
  eexists. split; [vm_compute; reflexivity|].
  repeat split; vm_compute; reflexivity.
Qed.

End Format.

Section FormattedBits.

Lemma formatted_bits_low :
  forallb (fun n => Bool.eqb (bit_is_set formatted_bitvector (Z.of_nat n))
                             (set_by_format (Z.of_nat n)))
          (seq 0 40) = true.
Proof. vm_compute. reflexivity. Qed.

Lemma formatted_bits (i : Z) :
  0 <= i -> bit_is_set formatted_bitvector i = set_by_format i.
Proof.
  intros Hi. destruct (Z.lt_ge_cases i 40) as [Hlow|Hhigh].
  - pose proof (proj1 (forallb_forall _ _) formatted_bits_low (Z.to_nat i)) as Hcheck.
    cbv beta in Hcheck. rewrite Z2Nat.id in Hcheck by lia.
    apply Bool.eqb_prop, Hcheck, in_seq. lia.
  - assert (5 <= i / 8) as Hbyte by (apply Z.div_le_lower_bound; lia).
    replace (set_by_format i) with false by (unfold set_by_format; lia).
    unfold bit_is_set, formatted_bitvector.
    rewrite lookup_app_r by (simpl length; lia).
    destruct (replicate (Z.to_nat 8186) 0 !! _) as [b|] eqn:Hb; [|reflexivity].
    apply lookup_replicate_1 in Hb as [-> _]. apply Z.bits_0.
Qed.

End FormattedBits.

(** C2. After a successful cifsCreateFileSystem the in-memory bitvector
    has exactly the bits of blocks 0..23 and 31..33 set. Blocks 24..30
    belong to the fixed metadata region (they are below
    CIFS_SUPERBLOCK_INDEX = 31, and the call writes bitvector bytes to
    them), yet their bits are 0: the claim fails at i = 24. *)
Theorem cifsCreateFileSystem_bitvector (e : env) (w : world) :
  malloc_ok e = true -> fopen_ok e = true ->
  exists w' ctx,
    cifsCreateFileSystem e w = Returned (CIFS_NO_ERROR, w') /\
    cifsContext w' = Some ctx /\
    (forall i, 0 <= i -> bit_is_set (bitvector ctx) i = set_by_format i) /\
    24 < CIFS_SUPERBLOCK_INDEX /\
    cifsVolume w' !! 24 = Some (RawImage (replicate (Z.to_nat 256) 0)) /\
    bit_is_set (bitvector ctx) 24 = false.
Proof.
  intros Hmalloc Hfopen.
  destruct (cifsCreateFileSystem_result e w Hmalloc Hfopen)
    as (w' & Hrun & Hctx & _ & _ & Hblock).
  exists w', formatted_context.
  split; [exact Hrun|]. split; [exact Hctx|].
  split; [exact formatted_bits|].
  split; [reflexivity|]. split; [exact Hblock|].
  rewrite formatted_bits by lia. reflexivity.
Qed.

Lemma cifsCreateFileSystem_bitvector_witness :
  malloc_ok test_env = true /\ fopen_ok test_env = true /\
  exists w' ctx,
    cifsCreateFileSystem test_env initial_world = Returned (CIFS_NO_ERROR, w') /\
    cifsContext w' = Some ctx /\
    (forall i, 0 <= i -> bit_is_set (bitvector ctx) i = set_by_format i) /\
    24 < CIFS_SUPERBLOCK_INDEX /\
    cifsVolume w' !! 24 = Some (RawImage (replicate (Z.to_nat 256) 0)) /\
    bit_is_set (bitvector ctx) 24 = false.
Proof.
  split; [reflexivity|]. split; [reflexivity|].
  apply cifsCreateFileSystem_bitvector; reflexivity.
Defined.

(** ** Mounting a volume *)

Section Mount.

Variables (e : env) (w : world) (sb : CIFS_SUPERBLOCK_TYPE).
Hypothesis Hmalloc : malloc_ok e = true.
Hypothesis Hsuper :
  cifsVolume w !! ushort CIFS_SUPERBLOCK_INDEX = Some (SuperblockImage sb).

Lemma cifsMountFileSystem_result :
  cifsMountFileSystem e w = Returned (CIFS_NO_ERROR, with_context w (Some (mounted_context e sb))).
Proof.
  unfold cifsMountFileSystem, cifsReadSuperblock.
  rewrite Hmalloc, Hsuper. reflexivity.
Qed.

End Mount.

(* A call for which fopen returns a stream and the context can be
   allocated, on a volume with a superblock in its block. *)
Lemma cifsMountFileSystem_call_result (e : env) (w : world) (sb : CIFS_SUPERBLOCK_TYPE) :
  fopen_ok e = true -> malloc_ok e = true ->
  cifsVolume w !! ushort CIFS_SUPERBLOCK_INDEX = Some (SuperblockImage sb) ->
  cifsMountFileSystem_call e w =
    Returned (CIFS_NO_ERROR, with_context w (Some (mounted_context e sb))).
Proof.
  intros Hfopen Hmalloc Hsuper. unfold cifsMountFileSystem_call.
  rewrite Hfopen. cbn [negb]. now apply cifsMountFileSystem_result.
Qed.

(** C7. cifsMountFileSystem on a volume that holds a file system returns
    CIFS_NO_ERROR and builds no registry: the context it leaves has no
    hash table and therefore no entry, whatever descriptors the volume
    holds; traverseDisk, had it been called, changes nothing either. *)
Theorem cifsMountFileSystem_no_registry (e : env) (w : world)
    (sb : CIFS_SUPERBLOCK_TYPE) :
  malloc_ok e = true ->
  cifsVolume w !! ushort CIFS_SUPERBLOCK_INDEX = Some (SuperblockImage sb) ->
  exists w' ctx,
    cifsMountFileSystem e w = Returned (CIFS_NO_ERROR, w') /\
    cifsVolume w' = cifsVolume w /\
    cifsContext w' = Some ctx /\
    registry ctx = None /\ registry_entries ctx = [] /\
    forall index size path, traverseDisk w' index size path = w'.
Proof.
  intros Hmalloc Hsuper.
  exists (with_context w (Some (mounted_context e sb))), (mounted_context e sb).
  split; [now apply cifsMountFileSystem_result|].
  repeat split.
Qed.

(* The volume formatted by cifsCreateFileSystem holds the descriptor of
   the root folder in block 32; after mounting it the registry has no
   entry for it. *)
Lemma cifsMountFileSystem_no_registry_witness :
  exists w0,
    cifsCreateFileSystem test_env initial_world = Returned (CIFS_NO_ERROR, w0) /\
    volume_descriptor (cifsVolume w0) 32 = Some (root_descriptor test_env initial_world) /\
    malloc_ok test_env = true /\
    cifsVolume w0 !! ushort CIFS_SUPERBLOCK_INDEX = Some (SuperblockImage formatted_superblock) /\
    exists w' ctx,
      cifsMountFileSystem test_env w0 = Returned (CIFS_NO_ERROR, w') /\
      cifsVolume w' = cifsVolume w0 /\
      cifsContext w' = Some ctx /\
      registry ctx = None /\ registry_entries ctx = [] /\
      forall index size path, traverseDisk w' index size path = w'.
Proof.
  eexists. split; [vm_compute; reflexivity|].
  split; [vm_compute; reflexivity|]. split; [reflexivity|].
  split; [vm_compute; reflexivity|].
  apply (cifsMountFileSystem_no_registry test_env _ formatted_superblock);
    [reflexivity|vm_compute; reflexivity].
Defined.

(** ** Creating files *)

Section Create.

Variables (u : undeclared) (e : env).

(* One call: it returns CIFS_NO_ERROR, writes no block, gives the
   descriptor it builds the counter of the in-memory superblock, and
   leaves the context with the superblock stored on the volume. *)
Lemma cifsCreateFile_result (w : world) (ctx : CIFS_CONTEXT_TYPE)
    (sb : CIFS_SUPERBLOCK_TYPE) (filePath : string) (type_ : CIFS_CONTENT_TYPE) :
  cifsContext w = Some ctx ->
  cifsVolume w !! ushort CIFS_SUPERBLOCK_INDEX = Some (SuperblockImage sb) ->
  exists r,
    cifsCreateFile u e w filePath type_ = Returned r /\
    create_error r = CIFS_NO_ERROR /\
    cifsVolume (create_world r) = cifsVolume w /\
    cifsContext (create_world r) = Some (with_superblock ctx sb) /\
    identifier <$> descriptor_of (freeBlk r) =
      Some (cifsNextUniqueIdentifier (superblock ctx)).
Proof.
  intros Hctx Hsuper. unfold cifsCreateFile. rewrite Hctx.
  cbn [next_identifier sys_umask]. unfold cifsReadSuperblock.
  cbn [cifsVolume]. rewrite Hsuper. cbn [obind].
  eexists. split; [reflexivity|]. repeat split.
Qed.

End Create.

(** C8. cifsCreateFile returns CIFS_NO_ERROR, not CIFS_OPEN_ERROR, when
    the calling process has the target folder in no open-file list; it
    never looks at the process list. *)
Theorem cifsCreateFile_ignores_open_list (u : undeclared) (e : env) (w : world)
    (ctx : CIFS_CONTEXT_TYPE) (sb : CIFS_SUPERBLOCK_TYPE)
    (filePath : string) (type_ : CIFS_CONTENT_TYPE) (folder : Z) :
  cifsContext w = Some ctx ->
  cifsVolume w !! ushort CIFS_SUPERBLOCK_INDEX = Some (SuperblockImage sb) ->
  ~ open_by ctx (pid (fuseContext e)) folder ->
  exists r,
    cifsCreateFile u e w filePath type_ = Returned r /\
    create_error r = CIFS_NO_ERROR /\
    create_error r <> CIFS_OPEN_ERROR.
Proof.
  intros Hctx Hsuper _.
  destruct (cifsCreateFile_result u e w ctx sb filePath type_ Hctx Hsuper)
    as (r & Hr & Herr & _).
  exists r. split; [exact Hr|]. split; [exact Herr|].
  rewrite Herr. discriminate.
Qed.

Lemma not_open_without_list (ctx : CIFS_CONTEXT_TYPE) (p ident : Z) :
  processList ctx = None -> ~ open_by ctx p ident.
Proof. intros Hnone (pl & pcb & f & Hpl & _). congruence. Qed.

(* Right after creating and mounting the file system nothing is open, the
   root folder (identifier 0) included. *)
Lemma cifsCreateFile_ignores_open_list_witness :
  exists w1 ctx,
    create_and_mount test_env initial_world = Returned w1 /\
    cifsContext w1 = Some ctx /\
    cifsVolume w1 !! ushort CIFS_SUPERBLOCK_INDEX = Some (SuperblockImage formatted_superblock) /\
    ~ open_by ctx (pid (fuseContext test_env)) 0 /\
    exists r,
      cifsCreateFile test_undeclared test_env w1 "/file1" CIFS_FILE_CONTENT_TYPE = Returned r /\
      create_error r = CIFS_NO_ERROR /\
      create_error r <> CIFS_OPEN_ERROR.
Proof.
  eexists _, _. split; [vm_compute; reflexivity|].
  split; [vm_compute; reflexivity|].
  split; [vm_compute; reflexivity|].
  split; [apply not_open_without_list; reflexivity|].
  apply (cifsCreateFile_ignores_open_list test_undeclared test_env _
           (mounted_context test_env formatted_superblock)
           formatted_superblock "/file1" CIFS_FILE_CONTENT_TYPE 0);
    [vm_compute; reflexivity|vm_compute; reflexivity
    |apply not_open_without_list; reflexivity].
Defined.

(** ** Writing a file *)

(** C1. cifsWriteFile returns CIFS_NO_ERROR, not CIFS_ALLOC_ERROR, when
    the new content needs more blocks than the bitvector has free; it
    changes nothing. *)
Theorem cifsWriteFile_ignores_free_space (w : world) (ctx : CIFS_CONTEXT_TYPE)
    (fileHandle : Z) (writeBuffer : string) :
  cifsContext w = Some ctx ->
  free_blocks (bitvector ctx) < blocks_needed (Z.of_nat (String.length writeBuffer)) ->
  cifsWriteFile w fileHandle writeBuffer = (CIFS_NO_ERROR, w) /\
  fst (cifsWriteFile w fileHandle writeBuffer) <> CIFS_ALLOC_ERROR.
Proof.
  intros _ _. unfold cifsWriteFile. split; [reflexivity|discriminate].
Qed.

Lemma cifsWriteFile_ignores_free_space_witness :
  cifsContext full_world = Some full_context /\
  free_blocks (bitvector full_context) < blocks_needed (Z.of_nat (String.length "x")) /\
  cifsWriteFile full_world 0 "x" = (CIFS_NO_ERROR, full_world) /\
  fst (cifsWriteFile full_world 0 "x") <> CIFS_ALLOC_ERROR.
Proof.
  split; [reflexivity|]. split; [reflexivity|].
  apply (cifsWriteFile_ignores_free_space full_world full_context 0 "x"); reflexivity.
Defined.

(** ** The bit operations, bit by bit *)

Section BitEffects.

Lemma mask_testbit (s t : Z) :
  0 <= s < 8 -> 0 <= t -> Z.testbit (Z.shiftr 0x80 s) t = (t =? 7 - s).
Proof.
  intros Hs Ht. rewrite mask_pow2 by assumption.
  rewrite Z.pow2_bits_eqb by lia. apply Z.eqb_sym.
Qed.

Lemma set_byte_bits : updates_bit set_byte (fun _ => true).
Proof.
  intros b s t Hs Ht. unfold set_byte.
  rewrite uchar_testbit, Z.lor_spec, mask_testbit by lia.
  destruct (t =? 7 - s); [apply orb_true_r|apply orb_false_r].
Qed.

Lemma clear_byte_bits : updates_bit clear_byte (fun _ => false).
Proof.
  intros b s t Hs Ht. unfold clear_byte.
  rewrite uchar_testbit, Z.land_spec, Z.lnot_spec, mask_testbit by lia.
  destruct (t =? 7 - s); [apply andb_false_r|apply andb_true_r].
Qed.

Lemma flip_byte_bits : updates_bit flip_byte negb.
Proof.
  intros b s t Hs Ht. unfold flip_byte.
  rewrite uchar_testbit, Z.lxor_spec, mask_testbit by lia.
  destruct (t =? 7 - s), (Z.testbit b t); reflexivity.
Qed.

(* two bytes with the same eight bits are the same byte *)
Lemma uchar_ext (a b : Z) :
  is_uchar a -> is_uchar b ->
  (forall t, 0 <= t < 8 -> Z.testbit a t = Z.testbit b t) -> a = b.
Proof.
  intros Ha Hb Hbits. apply Z.bits_inj'. intros n Hn.
  destruct (Z.lt_ge_cases n 8) as [Hlt|Hge]; [apply Hbits; lia|].
  rewrite <- (Z.mod_small a (2 ^ 8)), <- (Z.mod_small b (2 ^ 8)) by assumption.
  rewrite !Z.mod_pow2_bits_high by lia. reflexivity.
Qed.

Lemma read_modify_write_returns (f : Z -> Z -> Z) (bv : list Z) (bitIndex b : Z) :
  0 <= bitIndex < 65536 ->
  bv !! Z.to_nat (bitIndex / 8) = Some b ->
  read_modify_write f bv bitIndex =
    Returned (<[Z.to_nat (bitIndex / 8) := f b (bitIndex mod 8)]> bv).
Proof.
  intros Hi Hb. unfold read_modify_write, read, write.
  rewrite block_index_of, bit_shift_of by assumption.
  rewrite Hb. reflexivity.
Qed.

Lemma read_modify_write_inv (f : Z -> Z -> Z) (bv bv' : list Z) (bitIndex : Z) :
  0 <= bitIndex < 65536 ->
  read_modify_write f bv bitIndex = Returned bv' ->
  exists b, bv !! Z.to_nat (bitIndex / 8) = Some b /\
            bv' = <[Z.to_nat (bitIndex / 8) := f b (bitIndex mod 8)]> bv.
Proof.
  intros Hi Hrun.
  destruct (bv !! Z.to_nat (bitIndex / 8)) as [b|] eqn:Hb.
  - rewrite (read_modify_write_returns f bv bitIndex b Hi Hb) in Hrun.
    injection Hrun as <-. now exists b.
  - unfold read_modify_write, read in Hrun.
    rewrite block_index_of, Hb in Hrun by assumption. discriminate.
Qed.

Lemma same_byte_other_bit (i k : Z) :
  k / 8 = i / 8 -> k <> i -> k mod 8 <> i mod 8.
Proof.
  intros Hdiv Hne Hmod. apply Hne.
  rewrite (Z.div_mod k 8), (Z.div_mod i 8) by lia. now rewrite Hdiv, Hmod.
Qed.

(* The bits of the vector after an operation whose byte function changes
   one bit by [upd]. *)
Lemma read_modify_write_bits (f : Z -> Z -> Z) (upd : bool -> bool)
    (bv bv' : list Z) (bitIndex : Z) :
  updates_bit f upd -> 0 <= bitIndex < 65536 ->
  read_modify_write f bv bitIndex = Returned bv' ->
  bit_is_set bv' bitIndex = upd (bit_is_set bv bitIndex) /\
  forall k, 0 <= k -> k <> bitIndex -> bit_is_set bv' k = bit_is_set bv k.
Proof.
  intros Hf Hi Hrun.
  destruct (read_modify_write_inv f bv bv' bitIndex Hi Hrun) as (b & Hb & ->).
  apply lookup_lt_Some in Hb as Hlt.
  pose proof (Z.mod_pos_bound bitIndex 8 eq_refl) as Hs.
  split.
  - unfold bit_is_set. rewrite list_lookup_insert_eq, Hb by assumption.
    rewrite Hf by lia. now rewrite Z.eqb_refl.
  - intros k Hk Hne. unfold bit_is_set.
    pose proof (Z.mod_pos_bound k 8 eq_refl) as Ht.
    destruct (Z.eq_dec (k / 8) (bitIndex / 8)) as [Heq|Hother].
    + rewrite Heq, list_lookup_insert_eq, Hb by assumption.
      rewrite Hf by lia.
      pose proof (same_byte_other_bit bitIndex k Heq Hne).
      destruct (Z.eqb_spec (7 - k mod 8) (7 - bitIndex mod 8)); [lia|reflexivity].
    + rewrite list_lookup_insert_ne; [reflexivity|].
      assert (0 <= k / 8) by (apply Z.div_pos; lia).
      assert (0 <= bitIndex / 8) by (apply Z.div_pos; lia). lia.
Qed.

Lemma read_modify_write_bytes (f : Z -> Z -> Z) (bv bv' : list Z) (bitIndex : Z) :
  (forall b s, is_uchar (f b s)) -> 0 <= bitIndex < 65536 ->
  read_modify_write f bv bitIndex = Returned bv' ->
  Forall is_uchar bv -> Forall is_uchar bv' /\ length bv' = length bv.
Proof.
  intros Hf Hi Hrun Hbytes.
  destruct (read_modify_write_inv f bv bv' bitIndex Hi Hrun) as (b & Hb & ->).
  split; [|apply length_insert]. apply Forall_insert; [assumption|apply Hf].
Qed.

End BitEffects.

(** X1. cifsSetBit sets the bit it is given and changes no other bit of
    the vector; bytes stay bytes and the length stays. *)
Theorem cifsSetBit_bits (bv bv' : list Z) (bitIndex : Z) :
  Forall is_uchar bv -> 0 <= bitIndex < 65536 ->
  cifsSetBit bv bitIndex = Returned bv' ->
  bit_is_set bv' bitIndex = true /\
  (forall k, 0 <= k -> k <> bitIndex -> bit_is_set bv' k = bit_is_set bv k) /\
  Forall is_uchar bv' /\ length bv' = length bv.
Proof.
  intros Hbytes Hi Hrun. change (read_modify_write set_byte bv bitIndex = Returned bv') in Hrun.
  destruct (read_modify_write_bits _ _ bv bv' bitIndex set_byte_bits Hi Hrun) as (Hbit & Hother).
  split; [exact Hbit|]. split; [exact Hother|].
  apply (read_modify_write_bytes set_byte bv bv' bitIndex); try assumption.
  intros b s. apply uchar_range.
Qed.

Lemma cifsSetBit_bits_witness :
  let bv := [0xFF; 0x00; 0xF0] in
  let bv' := [0xFF; 0x40; 0xF0] in
  Forall is_uchar bv /\ 0 <= 9 < 65536 /\ cifsSetBit bv 9 = Returned bv' /\
  bit_is_set bv' 9 = true /\
  (forall k, 0 <= k -> k <> 9 -> bit_is_set bv' k = bit_is_set bv k) /\
  Forall is_uchar bv' /\ length bv' = length bv.
Proof.
  assert (Forall is_uchar [0xFF; 0x00; 0xF0]) as Hbytes
    by (repeat constructor; unfold is_uchar; lia).
  split; [exact Hbytes|]. split; [lia|]. split; [reflexivity|].
  apply (cifsSetBit_bits [0xFF; 0x00; 0xF0]); [exact Hbytes|lia|reflexivity].
Defined.

(** X2. cifsClearBit clears the bit it is given and changes no other bit
    of the vector; bytes stay bytes and the length stays. *)
Theorem cifsClearBit_bits (bv bv' : list Z) (bitIndex : Z) :
  Forall is_uchar bv -> 0 <= bitIndex < 65536 ->
  cifsClearBit bv bitIndex = Returned bv' ->
  bit_is_set bv' bitIndex = false /\
  (forall k, 0 <= k -> k <> bitIndex -> bit_is_set bv' k = bit_is_set bv k) /\
  Forall is_uchar bv' /\ length bv' = length bv.
Proof.
  intros Hbytes Hi Hrun. change (read_modify_write clear_byte bv bitIndex = Returned bv') in Hrun.
  destruct (read_modify_write_bits _ _ bv bv' bitIndex clear_byte_bits Hi Hrun) as (Hbit & Hother).
  split; [exact Hbit|]. split; [exact Hother|].
  apply (read_modify_write_bytes clear_byte bv bv' bitIndex); try assumption.
  intros b s. apply uchar_range.
Qed.

Lemma cifsClearBit_bits_witness :
  let bv := [0xFF; 0x00; 0xF0] in
  let bv' := [0xDF; 0x00; 0xF0] in
  Forall is_uchar bv /\ 0 <= 2 < 65536 /\ cifsClearBit bv 2 = Returned bv' /\
  bit_is_set bv' 2 = false /\
  (forall k, 0 <= k -> k <> 2 -> bit_is_set bv' k = bit_is_set bv k) /\
  Forall is_uchar bv' /\ length bv' = length bv.
Proof.
  assert (Forall is_uchar [0xFF; 0x00; 0xF0]) as Hbytes
    by (repeat constructor; unfold is_uchar; lia).
  split; [exact Hbytes|]. split; [lia|]. split; [reflexivity|].
  apply (cifsClearBit_bits [0xFF; 0x00; 0xF0]); [exact Hbytes|lia|reflexivity].
Defined.

(** X3. cifsFlipBit inverts the bit it is given and changes no other bit
    of the vector; bytes stay bytes and the length stays. *)
Theorem cifsFlipBit_bits (bv bv' : list Z) (bitIndex : Z) :
  Forall is_uchar bv -> 0 <= bitIndex < 65536 ->
  cifsFlipBit bv bitIndex = Returned bv' ->
  bit_is_set bv' bitIndex = negb (bit_is_set bv bitIndex) /\
  (forall k, 0 <= k -> k <> bitIndex -> bit_is_set bv' k = bit_is_set bv k) /\
  Forall is_uchar bv' /\ length bv' = length bv.
Proof.
  intros Hbytes Hi Hrun. change (read_modify_write flip_byte bv bitIndex = Returned bv') in Hrun.
  destruct (read_modify_write_bits _ _ bv bv' bitIndex flip_byte_bits Hi Hrun) as (Hbit & Hother).
  split; [exact Hbit|]. split; [exact Hother|].
  apply (read_modify_write_bytes flip_byte bv bv' bitIndex); try assumption.
  intros b s. apply uchar_range.
Qed.

Lemma cifsFlipBit_bits_witness :
  let bv := [0xFF; 0x00; 0xF0] in
  let bv' := [0xFF; 0x00; 0xF1] in
  Forall is_uchar bv /\ 0 <= 23 < 65536 /\ cifsFlipBit bv 23 = Returned bv' /\
  bit_is_set bv' 23 = negb (bit_is_set bv 23) /\
  (forall k, 0 <= k -> k <> 23 -> bit_is_set bv' k = bit_is_set bv k) /\
  Forall is_uchar bv' /\ length bv' = length bv.
Proof.
  assert (Forall is_uchar [0xFF; 0x00; 0xF0]) as Hbytes
    by (repeat constructor; unfold is_uchar; lia).
  split; [exact Hbytes|]. split; [lia|]. split; [reflexivity|].
  apply (cifsFlipBit_bits [0xFF; 0x00; 0xF0]); [exact Hbytes|lia|reflexivity].
Defined.

(** ** How the bit operations compose *)

Section BitCompositions.

Lemma set_byte_of_set_bit (b s : Z) :
  is_uchar b -> 0 <= s < 8 -> Z.testbit b (7 - s) = true -> set_byte b s = b.
Proof.
  intros Hb Hs Hbit. apply uchar_ext; [apply uchar_range|assumption|].
  intros t Ht. rewrite set_byte_bits by assumption.
  destruct (Z.eqb_spec t (7 - s)) as [->|]; [now rewrite Hbit|reflexivity].
Qed.

Lemma clear_byte_of_clear_bit (b s : Z) :
  is_uchar b -> 0 <= s < 8 -> Z.testbit b (7 - s) = false -> clear_byte b s = b.
Proof.
  intros Hb Hs Hbit. apply uchar_ext; [apply uchar_range|assumption|].
  intros t Ht. rewrite clear_byte_bits by assumption.
  destruct (Z.eqb_spec t (7 - s)) as [->|]; [now rewrite Hbit|reflexivity].
Qed.

Lemma flip_byte_twice (b s : Z) :
  is_uchar b -> 0 <= s < 8 -> flip_byte (flip_byte b s) s = b.
Proof.
  intros Hb Hs. apply uchar_ext; [apply uchar_range|assumption|].
  intros t Ht. rewrite !flip_byte_bits by assumption.
  destruct (t =? 7 - s); [apply negb_involutive|reflexivity].
Qed.

Lemma clear_after_set_byte (b s : Z) :
  0 <= s < 8 -> clear_byte (set_byte b s) s = clear_byte b s.
Proof.
  intros Hs. apply uchar_ext; try apply uchar_range.
  intros t Ht. rewrite !clear_byte_bits, set_byte_bits by assumption.
  destruct (t =? 7 - s); reflexivity.
Qed.

Lemma set_after_clear_byte (b s : Z) :
  0 <= s < 8 -> set_byte (clear_byte b s) s = set_byte b s.
Proof.
  intros Hs. apply uchar_ext; try apply uchar_range.
  intros t Ht. rewrite !set_byte_bits, clear_byte_bits by assumption.
  destruct (t =? 7 - s); reflexivity.
Qed.

Lemma flip_byte_cases (b s : Z) :
  0 <= s < 8 ->
  flip_byte b s = if Z.testbit b (7 - s) then clear_byte b s else set_byte b s.
Proof.
  intros Hs. destruct (Z.testbit b (7 - s)) eqn:Hbit;
    (apply uchar_ext; try apply uchar_range; intros t Ht;
     rewrite flip_byte_bits by assumption).
  - rewrite clear_byte_bits by assumption.
    destruct (Z.eqb_spec t (7 - s)) as [->|]; [now rewrite Hbit|reflexivity].
  - rewrite set_byte_bits by assumption.
    destruct (Z.eqb_spec t (7 - s)) as [->|]; [now rewrite Hbit|reflexivity].
Qed.

(* two operations on the same bit, one after the other *)
Lemma read_modify_write_twice (f g : Z -> Z -> Z) (bv : list Z) (bitIndex b : Z) :
  0 <= bitIndex < 65536 ->
  bv !! Z.to_nat (bitIndex / 8) = Some b ->
  (bv' <-- read_modify_write f bv bitIndex ;; read_modify_write g bv' bitIndex) =
    Returned (<[Z.to_nat (bitIndex / 8) := g (f b (bitIndex mod 8)) (bitIndex mod 8)]> bv).
Proof.
  intros Hi Hb. apply lookup_lt_Some in Hb as Hlt.
  rewrite (read_modify_write_returns f bv bitIndex b Hi Hb). cbn [obind].
  rewrite (read_modify_write_returns g _ bitIndex (f b (bitIndex mod 8)) Hi)
    by now apply list_lookup_insert_eq.
  now rewrite list_insert_insert_eq.
Qed.

Lemma read_modify_write_out (f : Z -> Z -> Z) (bv : list Z) (bitIndex : Z) :
  0 <= bitIndex < 65536 ->
  bv !! Z.to_nat (bitIndex / 8) = None ->
  read_modify_write f bv bitIndex = Fault OutOfBounds.
Proof.
  intros Hi Hb. unfold read_modify_write, read.
  rewrite block_index_of, Hb by assumption. reflexivity.
Qed.

Lemma bit_of_byte (bv : list Z) (bitIndex b : Z) :
  bv !! Z.to_nat (bitIndex / 8) = Some b ->
  bit_is_set bv bitIndex = Z.testbit b (7 - bitIndex mod 8).
Proof. intros Hb. unfold bit_is_set. now rewrite Hb. Qed.

End BitCompositions.

(** X4. Flipping the same bit twice gives the vector back. *)
Theorem cifsFlipBit_twice (bv bv' : list Z) (bitIndex : Z) :
  Forall is_uchar bv -> 0 <= bitIndex < 65536 ->
  cifsFlipBit bv bitIndex = Returned bv' ->
  cifsFlipBit bv' bitIndex = Returned bv.
Proof.
  intros Hbytes Hi Hrun.
  change (read_modify_write flip_byte bv bitIndex = Returned bv') in Hrun.
  change (read_modify_write flip_byte bv' bitIndex = Returned bv).
  destruct (read_modify_write_inv _ bv bv' bitIndex Hi Hrun) as (b & Hb & Hbv').
  pose proof (read_modify_write_twice flip_byte flip_byte bv bitIndex b Hi Hb) as Htwice.
  rewrite Hrun in Htwice. cbn [obind] in Htwice. rewrite Htwice.
  rewrite flip_byte_twice.
  - now rewrite list_insert_id.
  - exact (proj1 (Forall_lookup _ bv) Hbytes _ b Hb).
  - apply Z.mod_pos_bound. reflexivity.
Qed.

Lemma cifsFlipBit_twice_witness :
  let bv := [0xFF; 0xFF; 0xFF; 0xFF; 0xFF; 0xFF] in
  let bv' := [0xFF; 0xFF; 0xFF; 0xFF; 0xFF; 0xF7] in
  Forall is_uchar bv /\ 0 <= 44 < 65536 /\ cifsFlipBit bv 44 = Returned bv' /\
  cifsFlipBit bv' 44 = Returned bv.
Proof.
  assert (Forall is_uchar [0xFF; 0xFF; 0xFF; 0xFF; 0xFF; 0xFF]) as Hbytes
    by (repeat constructor; unfold is_uchar; lia).
  split; [exact Hbytes|]. split; [lia|]. split; [reflexivity|].
  apply (cifsFlipBit_twice [0xFF; 0xFF; 0xFF; 0xFF; 0xFF; 0xFF]);
    [exact Hbytes|lia|reflexivity].
Defined.

(** X5. Setting a bit that was clear and clearing it again gives the
    vector back; so does clearing a bit that was set and setting it
    again. *)
Theorem set_clear_round_trip (bv : list Z) (bitIndex : Z) :
  Forall is_uchar bv -> 0 <= bitIndex < 65536 ->
  Z.of_nat (length bv) > bitIndex / 8 ->
  (bit_is_set bv bitIndex = false ->
   (bv' <-- cifsSetBit bv bitIndex ;; cifsClearBit bv' bitIndex) = Returned bv) /\
  (bit_is_set bv bitIndex = true ->
   (bv' <-- cifsClearBit bv bitIndex ;; cifsSetBit bv' bitIndex) = Returned bv).
Proof.
  intros Hbytes Hi Hin.
  assert (0 <= bitIndex / 8) as Hnonneg by (apply Z.div_pos; lia).
  destruct (bv !! Z.to_nat (bitIndex / 8)) as [b|] eqn:Hb;
    [|apply lookup_ge_None in Hb; lia].
  pose proof (Z.mod_pos_bound bitIndex 8 eq_refl) as Hs.
  assert (is_uchar b) as Hu by exact (proj1 (Forall_lookup _ bv) Hbytes _ b Hb).
  rewrite (bit_of_byte bv bitIndex b Hb).
  split; intros Hbit.
  - change ((bv' <-- read_modify_write set_byte bv bitIndex ;;
             read_modify_write clear_byte bv' bitIndex) = Returned bv).
    rewrite (read_modify_write_twice _ _ bv bitIndex b Hi Hb).
    rewrite clear_after_set_byte, clear_byte_of_clear_bit by assumption.
    now rewrite list_insert_id.
  - change ((bv' <-- read_modify_write clear_byte bv bitIndex ;;
             read_modify_write set_byte bv' bitIndex) = Returned bv).
    rewrite (read_modify_write_twice _ _ bv bitIndex b Hi Hb).
    rewrite set_after_clear_byte, set_byte_of_set_bit by assumption.
    now rewrite list_insert_id.
Qed.

Lemma set_clear_round_trip_witness :
  let bv := [0xFF; 0xBF; 0xF0] in
  Forall is_uchar bv /\ 0 <= 9 < 65536 /\ Z.of_nat (length bv) > 9 / 8 /\
  (bit_is_set bv 9 = false ->
   (bv' <-- cifsSetBit bv 9 ;; cifsClearBit bv' 9) = Returned bv) /\
  (bit_is_set bv 9 = true ->
   (bv' <-- cifsClearBit bv 9 ;; cifsSetBit bv' 9) = Returned bv).
Proof.
  assert (Forall is_uchar [0xFF; 0xBF; 0xF0]) as Hbytes
    by (repeat constructor; unfold is_uchar; lia).
  split; [exact Hbytes|]. split; [lia|]. split; [reflexivity|].
  apply (set_clear_round_trip [0xFF; 0xBF; 0xF0]); [exact Hbytes|lia|reflexivity].
Defined.

(** X6. Setting a bit that is already set, or clearing a bit that is
    already clear, returns the vector unchanged; hence each of the two
    operations is idempotent. *)
Theorem set_clear_idempotent (bv : list Z) (bitIndex : Z) :
  Forall is_uchar bv -> 0 <= bitIndex < 65536 ->
  Z.of_nat (length bv) > bitIndex / 8 ->
  (bit_is_set bv bitIndex = true -> cifsSetBit bv bitIndex = Returned bv) /\
  (bit_is_set bv bitIndex = false -> cifsClearBit bv bitIndex = Returned bv) /\
  (bv' <-- cifsSetBit bv bitIndex ;; cifsSetBit bv' bitIndex) = cifsSetBit bv bitIndex /\
  (bv' <-- cifsClearBit bv bitIndex ;; cifsClearBit bv' bitIndex) = cifsClearBit bv bitIndex.
Proof.
  intros Hbytes Hi Hin.
  assert (0 <= bitIndex / 8) as Hnonneg by (apply Z.div_pos; lia).
  destruct (bv !! Z.to_nat (bitIndex / 8)) as [b|] eqn:Hb;
    [|apply lookup_ge_None in Hb; lia].
  pose proof (Z.mod_pos_bound bitIndex 8 eq_refl) as Hs.
  assert (is_uchar b) as Hu by exact (proj1 (Forall_lookup _ bv) Hbytes _ b Hb).
  rewrite (bit_of_byte bv bitIndex b Hb).
  change cifsSetBit with (read_modify_write set_byte).
  change cifsClearBit with (read_modify_write clear_byte).
  rewrite !(read_modify_write_twice _ _ bv bitIndex b Hi Hb).
  rewrite !(read_modify_write_returns _ bv bitIndex b Hi Hb).
  repeat split.
  - intros Hbit. now rewrite set_byte_of_set_bit, list_insert_id.
  - intros Hbit. now rewrite clear_byte_of_clear_bit, list_insert_id.
  - rewrite set_byte_of_set_bit; [reflexivity|apply uchar_range|assumption|].
    rewrite set_byte_bits by lia. now rewrite Z.eqb_refl.
  - rewrite clear_byte_of_clear_bit; [reflexivity|apply uchar_range|assumption|].
    rewrite clear_byte_bits by lia. now rewrite Z.eqb_refl.
Qed.

Lemma set_clear_idempotent_witness :
  let bv := [0xFF; 0xBF; 0xF0] in
  Forall is_uchar bv /\ 0 <= 9 < 65536 /\ Z.of_nat (length bv) > 9 / 8 /\
  (bit_is_set bv 9 = true -> cifsSetBit bv 9 = Returned bv) /\
  (bit_is_set bv 9 = false -> cifsClearBit bv 9 = Returned bv) /\
  (bv' <-- cifsSetBit bv 9 ;; cifsSetBit bv' 9) = cifsSetBit bv 9 /\
  (bv' <-- cifsClearBit bv 9 ;; cifsClearBit bv' 9) = cifsClearBit bv 9.
Proof.
  assert (Forall is_uchar [0xFF; 0xBF; 0xF0]) as Hbytes
    by (repeat constructor; unfold is_uchar; lia).
  split; [exact Hbytes|]. split; [lia|]. split; [reflexivity|].
  apply (set_clear_idempotent [0xFF; 0xBF; 0xF0]); [exact Hbytes|lia|reflexivity].
Defined.

(** X7. cifsFlipBit does what cifsClearBit does when the bit is set and
    what cifsSetBit does when it is clear, out-of-bounds accesses
    included. *)
Theorem cifsFlipBit_cases (bv : list Z) (bitIndex : Z) :
  0 <= bitIndex < 65536 ->
  cifsFlipBit bv bitIndex =
    if bit_is_set bv bitIndex then cifsClearBit bv bitIndex else cifsSetBit bv bitIndex.
Proof.
  intros Hi.
  change cifsSetBit with (read_modify_write set_byte).
  change cifsClearBit with (read_modify_write clear_byte).
  change cifsFlipBit with (read_modify_write flip_byte).
  destruct (bv !! Z.to_nat (bitIndex / 8)) as [b|] eqn:Hb.
  - rewrite (bit_of_byte bv bitIndex b Hb).
    rewrite !(read_modify_write_returns _ bv bitIndex b Hi Hb).
    rewrite flip_byte_cases by (apply Z.mod_pos_bound; reflexivity).
    destruct (Z.testbit b (7 - bitIndex mod 8)); reflexivity.
  - rewrite !(read_modify_write_out _ bv bitIndex Hi Hb).
    destruct (bit_is_set bv bitIndex); reflexivity.
Qed.

Lemma cifsFlipBit_cases_witness :
  0 <= 44 < 65536 /\
  cifsFlipBit [0xFF; 0xFF; 0xFF; 0xFF; 0xFF; 0xFF] 44 =
    if bit_is_set [0xFF; 0xFF; 0xFF; 0xFF; 0xFF; 0xFF] 44
    then cifsClearBit [0xFF; 0xFF; 0xFF; 0xFF; 0xFF; 0xFF] 44
    else cifsSetBit [0xFF; 0xFF; 0xFF; 0xFF; 0xFF; 0xFF] 44.
Proof.
  split; [lia|]. apply cifsFlipBit_cases. lia.
Defined.

(** ** Allocating and releasing blocks *)

Section Allocation.

Lemma full_byte_bits (t : Z) : 0 <= t < 8 -> Z.testbit 0xFF t = true.
Proof. intros Ht. change 255 with (Z.ones 8). apply Z.ones_spec_low. lia. Qed.

Lemma bits_below_returned (bv : list Z) (i : nat) (b j : Z) :
  first_free_byte bv i b -> first_zero_bit b j ->
  all_set_below bv (8 * Z.of_nat i + j).
Proof.
  intros (Hb & _ & Hfull) (Hj & _ & Hones) k Hk.
  pose proof (Z.mod_pos_bound k 8 eq_refl) as Ht.
  assert (0 <= k / 8) as Hnonneg by (apply Z.div_pos; lia).
  assert (k / 8 < Z.of_nat i + 1) as Hle.
  { apply Z.div_lt_upper_bound; lia. }
  unfold bit_is_set.
  destruct (Z.eq_dec (k / 8) (Z.of_nat i)) as [Heq|Hne].
  - rewrite Heq, Nat2Z.id, Hb. apply Hones.
    pose proof (Z.div_mod k 8). lia.
  - rewrite (Hfull (Z.to_nat (k / 8))) by lia. apply full_byte_bits. lia.
Qed.

(* The index returned is that of the least clear bit. *)
Lemma findFree_least (bv : list Z) :
  indexable bv -> has_free_bit bv ->
  exists r, cifsFindFreeBlock bv = Returned r /\
            0 <= r < 8 * Z.of_nat (length bv) /\
            bit_is_set bv r = false /\ all_set_below bv r.
Proof.
  intros (Hbytes & Hlen) Hfree.
  destruct (findFree_result bv Hbytes) as (i & b & j & Hi & Hj & Hr);
    [change (2 ^ 32) with 4294967296; lia|assumption|].
  rewrite (index_fits bv i b j Hlen Hi Hj) in Hr.
  exists (8 * Z.of_nat i + j). split; [exact Hr|].
  split.
  - destruct Hi as (Hb & _). destruct Hj as (Hj & _).
    apply lookup_lt_Some in Hb. lia.
  - split; [now apply (returned_bit_is_clear bv i b j)|now apply (bits_below_returned bv i b j)].
Qed.

Lemma clear_bit_is_free (bv : list Z) (i : Z) :
  0 <= i -> bit_is_set bv i = false -> Z.of_nat (length bv) > i / 8 ->
  has_free_bit bv.
Proof.
  intros Hi Hbit Hin.
  assert (0 <= i / 8) as Hnonneg by (apply Z.div_pos; lia).
  destruct (bv !! Z.to_nat (i / 8)) as [b|] eqn:Hb;
    [|apply lookup_ge_None in Hb; lia].
  exists (Z.to_nat (i / 8)), b. split; [exact Hb|].
  intros ->. rewrite (bit_of_byte bv i 255 Hb) in Hbit.
  pose proof (Z.mod_pos_bound i 8 eq_refl).
  rewrite full_byte_bits in Hbit by lia. discriminate.
Qed.

End Allocation.

(** X8. On a bitvector of at most 8192 bytes with a free bit,
    cifsFindFreeBlock returns the index of the lowest clear bit: the index
    lies inside the vector, its bit is clear, and every bit below it is
    set. *)
Theorem cifsFindFreeBlock_least_free (bv : list Z) :
  indexable bv -> has_free_bit bv ->
  exists r, cifsFindFreeBlock bv = Returned r /\
            0 <= r < 8 * Z.of_nat (length bv) /\
            bit_is_set bv r = false /\ all_set_below bv r.
Proof.
  intros (Hbytes & Hlen) Hfree.
  destruct (findFree_result bv Hbytes) as (i & b & j & Hi & Hj & Hr);
    [change (2 ^ 32) with 4294967296; lia|assumption|].
  rewrite (index_fits bv i b j Hlen Hi Hj) in Hr.
  exists (8 * Z.of_nat i + j). split; [exact Hr|].
  pose proof (returned_bit_is_clear bv i b j Hi Hj) as Hclear.
  pose proof (bits_below_returned bv i b j Hi Hj) as Hbelow.
  destruct Hi as (Hb & _). destruct Hj as (Hj & _).
  apply lookup_lt_Some in Hb. repeat split; try assumption; lia.
Qed.

Lemma cifsFindFreeBlock_least_free_witness :
  let bv := [0xFF; 0xFF; 0xFF; 0xFF; 0xBF; 0xF7] in
  indexable bv /\ has_free_bit bv /\
  exists r, cifsFindFreeBlock bv = Returned r /\
            0 <= r < 8 * Z.of_nat (length bv) /\
            bit_is_set bv r = false /\ all_set_below bv r.
Proof.
  assert (indexable [0xFF; 0xFF; 0xFF; 0xFF; 0xBF; 0xF7]) as Hok.
  { split; [repeat constructor; unfold is_uchar; lia|simpl; lia]. }
  assert (has_free_bit [0xFF; 0xFF; 0xFF; 0xFF; 0xBF; 0xF7]) as Hfree
    by (exists 4%nat, 0xBF; split; [reflexivity|discriminate]).
  split; [exact Hok|]. split; [exact Hfree|].
  apply cifsFindFreeBlock_least_free; [exact Hok|exact Hfree].
Defined.


Section AllocationOrder.

Lemma findFree_returns_free (bv : list Z) (r : Z) :
  Z.of_nat (length bv) < 2 ^ 32 ->
  cifsFindFreeBlock bv = Returned r -> has_free_bit bv.
Proof.
  intros Hlen Hrun. unfold cifsFindFreeBlock in Hrun.
  pose proof (skip_full_from bv (S (length bv)) Hlen 0%nat) as Hskip.
  change (Z.of_nat 0) with 0 in Hskip.
  destruct (skip_full (S (length bv)) bv 0) as [i|f]; [|discriminate].
  destruct Hskip as (k & b & _ & Hb & Hne & _); [lia|lia|intros k Hk; lia|].
  now exists k, b.
Qed.

Lemma indexable_short (bv : list Z) :
  indexable bv -> Z.of_nat (length bv) < 2 ^ 32.
Proof. intros (_ & Hlen). change (2 ^ 32) with 4294967296. lia. Qed.

End AllocationOrder.

(** X9. Allocation moves upwards: when the block that cifsFindFreeBlock
    returns is marked with cifsSetBit and a free bit remains, the next
    cifsFindFreeBlock returns a strictly larger index. *)
Theorem allocation_increases (bv bv' : list Z) (r : Z) :
  indexable bv ->
  cifsFindFreeBlock bv = Returned r ->
  cifsSetBit bv r = Returned bv' ->
  has_free_bit bv' ->
  exists r', cifsFindFreeBlock bv' = Returned r' /\ r < r'.
Proof.
  intros Hok Hfind Hset Hfree'.
  pose proof (findFree_returns_free bv r (indexable_short bv Hok) Hfind) as Hfree.
  destruct (findFree_least bv Hok Hfree) as (r0 & Hr0 & Hrange & Hclear & Hbelow).
  rewrite Hfind in Hr0. injection Hr0 as <-.
  destruct Hok as (Hbytes & Hlen).
  assert (0 <= r < 65536) as Hr by lia.
  change (read_modify_write set_byte bv r = Returned bv') in Hset.
  destruct (read_modify_write_bits _ _ bv bv' r set_byte_bits Hr Hset) as (Hbit & Hother).
  destruct (read_modify_write_bytes set_byte bv bv' r (fun b s => uchar_range _) Hr Hset Hbytes)
    as (Hbytes' & Hlen').
  destruct (findFree_least bv') as (r' & Hr' & Hrange' & Hclear' & _);
    [split; [assumption|lia]|assumption|].
  exists r'. split; [exact Hr'|].
  destruct (Z.lt_trichotomy r' r) as [Hlt|[->|Hgt]]; [|congruence|assumption].
  rewrite Hother, Hbelow in Hclear' by lia. discriminate.
Qed.

Lemma allocation_increases_witness :
  let bv := [0xFF; 0xFF; 0xFF; 0xFF; 0x7F; 0xF7] in
  let bv' := [0xFF; 0xFF; 0xFF; 0xFF; 0xFF; 0xF7] in
  indexable bv /\ cifsFindFreeBlock bv = Returned 32 /\
  cifsSetBit bv 32 = Returned bv' /\ has_free_bit bv' /\
  exists r', cifsFindFreeBlock bv' = Returned r' /\ 32 < r'.
Proof.
  assert (indexable [0xFF; 0xFF; 0xFF; 0xFF; 0x7F; 0xF7]) as Hok.
  { split; [repeat constructor; unfold is_uchar; lia|simpl; lia]. }
  assert (has_free_bit [0xFF; 0xFF; 0xFF; 0xFF; 0xFF; 0xF7]) as Hfree
    by (exists 5%nat, 0xF7; split; [reflexivity|discriminate]).
  split; [exact Hok|]. split; [reflexivity|]. split; [reflexivity|].
  split; [exact Hfree|].
  apply (allocation_increases [0xFF; 0xFF; 0xFF; 0xFF; 0x7F; 0xF7]);
    [exact Hok|reflexivity|reflexivity|exact Hfree].
Defined.

(** X10. A released block is found again: after cifsClearBit(bitvector, i)
    cifsFindFreeBlock returns an index that is at most i, and exactly i
    when every bit below i was set. *)
Theorem release_then_find (bv bv' : list Z) (i : Z) :
  indexable bv -> 0 <= i < 65536 ->
  cifsClearBit bv i = Returned bv' ->
  exists r, cifsFindFreeBlock bv' = Returned r /\ r <= i /\
            (all_set_below bv i -> r = i).
Proof.
  intros (Hbytes & Hlen) Hi Hclear.
  change (read_modify_write clear_byte bv i = Returned bv') in Hclear.
  destruct (read_modify_write_bits _ _ bv bv' i clear_byte_bits Hi Hclear) as (Hbit & Hother).
  destruct (read_modify_write_bytes clear_byte bv bv' i (fun b s => uchar_range _) Hi Hclear Hbytes)
    as (Hbytes' & Hlen').
  destruct (read_modify_write_inv _ bv bv' i Hi Hclear) as (b & Hb & _).
  apply lookup_lt_Some in Hb.
  assert (0 <= i / 8) as Hnonneg by (apply Z.div_pos; lia).
  assert (has_free_bit bv') as Hfree
    by (apply (clear_bit_is_free bv' i); [lia|exact Hbit|lia]).
  destruct (findFree_least bv') as (r & Hr & Hrange & Hclear' & Hbelow);
    [split; [assumption|lia]|assumption|].
  exists r. split; [exact Hr|].
  assert (r <= i) as Hle.
  { destruct (Z.le_gt_cases r i); [assumption|].
    rewrite Hbelow in Hbit by lia. discriminate. }
  split; [exact Hle|].
  intros Hset. destruct (Z.eq_dec r i); [assumption|].
  rewrite Hother, Hset in Hclear' by lia. discriminate.
Qed.

Lemma release_then_find_witness :
  let bv := [0xFF; 0xFF; 0xFF; 0xFF; 0xFF; 0xF7] in
  let bv' := [0xFF; 0xFF; 0xFF; 0xFF; 0xBF; 0xF7] in
  indexable bv /\ 0 <= 33 < 65536 /\ cifsClearBit bv 33 = Returned bv' /\
  exists r, cifsFindFreeBlock bv' = Returned r /\ r <= 33 /\
            (all_set_below bv 33 -> r = 33).
Proof.
  assert (indexable [0xFF; 0xFF; 0xFF; 0xFF; 0xFF; 0xF7]) as Hok.
  { split; [repeat constructor; unfold is_uchar; lia|simpl; lia]. }
  split; [exact Hok|]. split; [lia|]. split; [reflexivity|].
  apply (release_then_find [0xFF; 0xFF; 0xFF; 0xFF; 0xFF; 0xF7]);
    [exact Hok|lia|reflexivity].
Defined.

Section Commutation.

Variables (f g : Z -> Z -> Z) (updf updg : bool -> bool).
Hypothesis Hf : updates_bit f updf.
Hypothesis Hg : updates_bit g updg.
Hypothesis Hfbyte : forall b s, is_uchar (f b s).
Hypothesis Hgbyte : forall b s, is_uchar (g b s).

Lemma byte_updates_commute (b s t : Z) :
  0 <= s < 8 -> 0 <= t < 8 -> s <> t -> g (f b s) t = f (g b t) s.
Proof.
  intros Hs Ht Hne. apply uchar_ext; [apply Hgbyte|apply Hfbyte|].
  intros x Hx.
  rewrite (Hg (f b s) t x Ht Hx), (Hf (g b t) s x Hs Hx), (Hf b s x Hs Hx), (Hg b t x Ht Hx).
  destruct (Z.eqb_spec x (7 - t)), (Z.eqb_spec x (7 - s)); try reflexivity. lia.
Qed.

Lemma read_modify_write_length (h : Z -> Z -> Z) (bv bv' : list Z) (i : Z) :
  0 <= i < 65536 -> read_modify_write h bv i = Returned bv' -> length bv' = length bv.
Proof.
  intros Hi Hrun. destruct (read_modify_write_inv h bv bv' i Hi Hrun) as (b & _ & ->).
  apply length_insert.
Qed.

Lemma read_modify_write_commute (bv : list Z) (i k : Z) :
  0 <= i < 65536 -> 0 <= k < 65536 -> i <> k ->
  (bv' <-- read_modify_write f bv i ;; read_modify_write g bv' k) =
  (bv' <-- read_modify_write g bv k ;; read_modify_write f bv' i).
Proof.
  intros Hi Hk Hne.
  assert (0 <= i / 8) by (apply Z.div_pos; lia).
  assert (0 <= k / 8) by (apply Z.div_pos; lia).
  pose proof (Z.mod_pos_bound i 8 eq_refl) as Hs.
  pose proof (Z.mod_pos_bound k 8 eq_refl) as Ht.
  destruct (bv !! Z.to_nat (i / 8)) as [b|] eqn:Hb;
    destruct (bv !! Z.to_nat (k / 8)) as [c|] eqn:Hc.
  - apply lookup_lt_Some in Hb as Hblt. apply lookup_lt_Some in Hc as Hclt.
    rewrite (read_modify_write_returns f bv i b Hi Hb).
    rewrite (read_modify_write_returns g bv k c Hk Hc). cbn [obind].
    destruct (Z.eq_dec (i / 8) (k / 8)) as [Heq|Hother].
    + rewrite Heq in *. assert (c = b) as -> by congruence.
      rewrite (read_modify_write_returns g _ k (f b (i mod 8)) Hk)
        by now apply list_lookup_insert_eq.
      rewrite (read_modify_write_returns f _ i (g b (k mod 8)) Hi)
        by (rewrite Heq; now apply list_lookup_insert_eq).
      rewrite Heq, !list_insert_insert_eq. do 2 f_equal.
      apply byte_updates_commute; try assumption.
      apply not_eq_sym, same_byte_other_bit; congruence.
    + assert (Z.to_nat (i / 8) <> Z.to_nat (k / 8)) as Hnat by lia.
      rewrite (read_modify_write_returns g _ k c Hk)
        by (rewrite list_lookup_insert_ne; assumption).
      rewrite (read_modify_write_returns f _ i b Hi)
        by (rewrite list_lookup_insert_ne; [assumption|congruence]).
      f_equal. now apply list_insert_insert_ne, not_eq_sym.
  - rewrite (read_modify_write_returns f bv i b Hi Hb).
    rewrite (read_modify_write_out g bv k Hk Hc). cbn [obind].
    apply read_modify_write_out; [assumption|].
    apply lookup_ge_None. rewrite length_insert. now apply lookup_ge_None.
  - rewrite (read_modify_write_out f bv i Hi Hb).
    rewrite (read_modify_write_returns g bv k c Hk Hc). cbn [obind].
    symmetry. apply read_modify_write_out; [assumption|].
    apply lookup_ge_None. rewrite length_insert. now apply lookup_ge_None.
  - rewrite (read_modify_write_out f bv i Hi Hb).
    rewrite (read_modify_write_out g bv k Hk Hc). reflexivity.
Qed.

End Commutation.

(** X11. Operations on two different bits commute: for any two of
    cifsSetBit, cifsClearBit and cifsFlipBit, applied to bit indices
    i <> k, either order gives the same vector (or the same out-of-bounds
    fault). *)
Theorem bit_operations_commute (bv : list Z) (i k : Z)
    (op1 op2 : list Z -> Z -> outcome (list Z)) :
  0 <= i < 65536 -> 0 <= k < 65536 -> i <> k ->
  In op1 [cifsSetBit; cifsClearBit; cifsFlipBit] ->
  In op2 [cifsSetBit; cifsClearBit; cifsFlipBit] ->
  (bv' <-- op1 bv i ;; op2 bv' k) = (bv' <-- op2 bv k ;; op1 bv' i).
Proof.
  intros Hi Hk Hne Hop1 Hop2. cbn [In] in Hop1, Hop2.
  pose proof (fun b s => uchar_range (Z.lor b (Z.shiftr 0x80 s))) as Hset.
  pose proof (fun b s => uchar_range (Z.land b (Z.lnot (Z.shiftr 0x80 s)))) as Hclear.
  pose proof (fun b s => uchar_range (Z.lxor b (Z.shiftr 0x80 s))) as Hflip.
  destruct Hop1 as [<-|[<-|[<-|[]]]]; destruct Hop2 as [<-|[<-|[<-|[]]]].
  - exact (read_modify_write_commute set_byte set_byte _ _ set_byte_bits set_byte_bits Hset Hset bv i k Hi Hk Hne).
  - exact (read_modify_write_commute set_byte clear_byte _ _ set_byte_bits clear_byte_bits Hset Hclear bv i k Hi Hk Hne).
  - exact (read_modify_write_commute set_byte flip_byte _ _ set_byte_bits flip_byte_bits Hset Hflip bv i k Hi Hk Hne).
  - exact (read_modify_write_commute clear_byte set_byte _ _ clear_byte_bits set_byte_bits Hclear Hset bv i k Hi Hk Hne).
  - exact (read_modify_write_commute clear_byte clear_byte _ _ clear_byte_bits clear_byte_bits Hclear Hclear bv i k Hi Hk Hne).
  - exact (read_modify_write_commute clear_byte flip_byte _ _ clear_byte_bits flip_byte_bits Hclear Hflip bv i k Hi Hk Hne).
  - exact (read_modify_write_commute flip_byte set_byte _ _ flip_byte_bits set_byte_bits Hflip Hset bv i k Hi Hk Hne).
  - exact (read_modify_write_commute flip_byte clear_byte _ _ flip_byte_bits clear_byte_bits Hflip Hclear bv i k Hi Hk Hne).
  - exact (read_modify_write_commute flip_byte flip_byte _ _ flip_byte_bits flip_byte_bits Hflip Hflip bv i k Hi Hk Hne).
Qed.

Lemma bit_operations_commute_witness :
  let bv := [0xFF; 0x00; 0xF0] in
  0 <= 9 < 65536 /\ 0 <= 12 < 65536 /\ 9 <> 12 /\
  (bv' <-- cifsSetBit bv 9 ;; cifsFlipBit bv' 12) =
  (bv' <-- cifsFlipBit bv 12 ;; cifsSetBit bv' 9).
Proof.
  split; [lia|]. split; [lia|]. split; [lia|].
  apply (bit_operations_commute [0xFF; 0x00; 0xF0] 9 12 cifsSetBit cifsFlipBit);
    [lia|lia|lia|left; reflexivity|right; right; left; reflexivity].
Defined.

(** ** The block device *)

Section Device.

Import BlockStore.

Lemma pwrite_length (file : list Z) (off : nat) (bytes : list Z) :
  length (pwrite file off bytes) = Nat.max (length file) (off + length bytes).
Proof.
  unfold pwrite. rewrite !length_app, length_take, length_replicate, length_drop. lia.
Qed.

(* Byte [i] of the file after a write of [bytes] at [off]. *)
Lemma pwrite_lookup (file : list Z) (off : nat) (bytes : list Z) (i : nat) :
  pwrite file off bytes !! i =
    if decide (i < off)%nat then
      (if decide (i < length file)%nat then file !! i else Some 0)
    else if decide (i < off + length bytes)%nat then bytes !! (i - off)%nat
    else file !! i.
Proof.
  unfold pwrite.
  destruct (decide (i < off)%nat) as [Hlt|Hge].
  - destruct (decide (i < length file)%nat) as [Hin|Hout].
    + rewrite lookup_app_l by (rewrite length_take; lia).
      now apply lookup_take_lt.
    + rewrite lookup_app_r by (rewrite length_take; lia).
      rewrite length_take.
      rewrite lookup_app_l by (rewrite length_replicate; lia).
      apply lookup_replicate_2. lia.
  - rewrite lookup_app_r by (rewrite length_take; lia).
    rewrite length_take.
    rewrite lookup_app_r by (rewrite length_replicate; lia).
    rewrite length_replicate.
    replace (i - Nat.min off (length file) - (off - length file))%nat
      with (i - off)%nat by lia.
    destruct (decide (i < off + length bytes)%nat) as [Hin|Hout].
    + apply lookup_app_l. lia.
    + rewrite lookup_app_r by lia. rewrite lookup_drop. f_equal. lia.
Qed.

Lemma pread_lookup (file : list Z) (off n i : nat) :
  pread file off n !! i = if decide (i < n)%nat then file !! (off + i)%nat else None.
Proof.
  unfold pread. destruct (decide (i < n)%nat).
  - rewrite lookup_take_lt by assumption. apply lookup_drop.
  - apply lookup_take_ge. lia.
Qed.

Lemma pread_length (file : list Z) (off n : nat) :
  length (pread file off n) = Nat.min n (length file - off).
Proof. unfold pread. now rewrite length_take, length_drop. Qed.

Lemma pread_pwrite_same (file : list Z) (off : nat) (bytes : list Z) :
  pread (pwrite file off bytes) off (length bytes) = bytes.
Proof.
  apply list_eq. intros i. rewrite pread_lookup, pwrite_lookup.
  destruct (decide (i < length bytes)%nat) as [Hin|Hout].
  - destruct (decide (off + i < off)%nat); [lia|].
    destruct (decide (off + i < off + length bytes)%nat); [|lia].
    f_equal. lia.
  - symmetry. apply lookup_ge_None. lia.
Qed.

(* a read of bytes that lie inside the old file and outside the written
   range is not affected by the write *)
Lemma pread_pwrite_other (file : list Z) (off : nat) (bytes : list Z) (off' n : nat) :
  (off' + n <= length file)%nat ->
  (off' + n <= off \/ off + length bytes <= off')%nat ->
  pread (pwrite file off bytes) off' n = pread file off' n.
Proof.
  intros Hin Hdisjoint. apply list_eq. intros i.
  rewrite !pread_lookup, pwrite_lookup.
  destruct (decide (i < n)%nat); [|reflexivity].
  destruct (decide (off' + i < off)%nat).
  - destruct (decide (off' + i < length file)%nat); [reflexivity|lia].
  - destruct (decide (off' + i < off + length bytes)%nat); [lia|reflexivity].
Qed.

(* a read inside the gap that a write past the end of the file leaves *)
Lemma pread_pwrite_gap (file : list Z) (off : nat) (bytes : list Z) (off' n : nat) :
  (length file <= off')%nat -> (off' + n <= off)%nat ->
  pread (pwrite file off bytes) off' n = replicate n 0.
Proof.
  intros Hpast Hbefore. apply list_eq. intros i.
  rewrite pread_lookup, pwrite_lookup.
  destruct (decide (i < n)%nat).
  - destruct (decide (off' + i < off)%nat); [|lia].
    destruct (decide (off' + i < length file)%nat); [lia|].
    symmetry. now apply lookup_replicate_2.
  - symmetry. apply lookup_replicate_None. lia.
Qed.

Variable BLOCK_SIZE : Z.
Hypothesis Hsize : 0 < BLOCK_SIZE.

Lemma block_offset (n : Z) :
  0 <= n < 65536 ->
  Z.to_nat (ushort n * BLOCK_SIZE) = (Z.to_nat n * Z.to_nat BLOCK_SIZE)%nat.
Proof.
  intros Hn. unfold ushort. rewrite wrap_small by (change (2 ^ 16) with 65536; lia).
  rewrite Z2Nat.inj_mul by lia. reflexivity.
Qed.

Lemma writeBlock_returns (volume content : list Z) (n : Z) :
  0 <= n < 65536 -> BLOCK_SIZE <= Z.of_nat (length content) ->
  writeBlock BLOCK_SIZE volume content n =
    Returned (BLOCK_SIZE,
              pwrite volume (Z.to_nat n * Z.to_nat BLOCK_SIZE)
                     (take (Z.to_nat BLOCK_SIZE) content)).
Proof.
  intros Hn Hlen. unfold writeBlock.
  destruct (Z.ltb_spec (Z.of_nat (length content)) BLOCK_SIZE); [lia|].
  rewrite block_offset by assumption.
  rewrite length_take_le by lia. rewrite Z2Nat.id by lia. reflexivity.
Qed.

Lemma cifsReadBlock_full (fresh : nat -> Z) (volume : list Z) (n : Z) (bytes : list Z) :
  0 <= n < 65536 -> length bytes = Z.to_nat BLOCK_SIZE ->
  pread volume (Z.to_nat n * Z.to_nat BLOCK_SIZE) (Z.to_nat BLOCK_SIZE) = bytes ->
  cifsReadBlock BLOCK_SIZE fresh volume n = (BLOCK_SIZE, bytes).
Proof.
  intros Hn Hlen Hread. unfold cifsReadBlock.
  rewrite block_offset, Hread, Hlen, Nat.sub_diag by assumption.
  cbn [seq map]. rewrite app_nil_r, Z2Nat.id by lia. reflexivity.
Qed.

End Device.

(** X12. A block written with writeBlock is what cifsReadBlock reads back
    from the same block number: fwrite reports BLOCK_SIZE bytes, fread
    obtains BLOCK_SIZE bytes, and they are the first BLOCK_SIZE bytes of
    the buffer written. *)
Theorem block_write_read (BLOCK_SIZE : Z) (fresh : nat -> Z)
    (volume content : list Z) (n : Z) :
  0 < BLOCK_SIZE -> 0 <= n < 65536 -> BLOCK_SIZE <= Z.of_nat (length content) ->
  exists volume',
    BlockStore.writeBlock BLOCK_SIZE volume content n = Returned (BLOCK_SIZE, volume') /\
    BlockStore.cifsReadBlock BLOCK_SIZE fresh volume' n =
      (BLOCK_SIZE, take (Z.to_nat BLOCK_SIZE) content).
Proof.
  intros Hsize Hn Hlen. eexists. split.
  - now apply writeBlock_returns.
  - assert (length (take (Z.to_nat BLOCK_SIZE) content) = Z.to_nat BLOCK_SIZE) as Hbytes
      by (rewrite length_take_le; lia).
    apply cifsReadBlock_full; try assumption.
    pose proof (pread_pwrite_same volume (Z.to_nat n * Z.to_nat BLOCK_SIZE)
                  (take (Z.to_nat BLOCK_SIZE) content)) as Hsame.
    now rewrite Hbytes in Hsame.
Qed.

Lemma block_write_read_witness :
  let content := replicate 16 97 ++ [0] in
  0 < 16 /\ 0 <= 3 < 65536 /\ 16 <= Z.of_nat (length content) /\
  exists volume',
    BlockStore.writeBlock 16 [] content 3 = Returned (16, volume') /\
    BlockStore.cifsReadBlock 16 (fun _ => 0) volume' 3 = (16, take (Z.to_nat 16) content).
Proof.
  split; [lia|]. split; [lia|]. split; [simpl; lia|].
  apply block_write_read; [lia|lia|simpl; lia].
Defined.

(** X13. Writing a block changes no other block that the volume already
    holds: a block m <> n that lies inside the file reads the same before
    and after writeBlock to block n. The file grows to the end of block n
    when it was shorter, and never shrinks. *)
Theorem block_write_frame (BLOCK_SIZE : Z) (fresh : nat -> Z)
    (volume content : list Z) (n m : Z) :
  0 < BLOCK_SIZE -> 0 <= n < 65536 -> 0 <= m < 65536 -> m <> n ->
  BLOCK_SIZE <= Z.of_nat (length content) ->
  (m + 1) * BLOCK_SIZE <= Z.of_nat (length volume) ->
  exists volume',
    BlockStore.writeBlock BLOCK_SIZE volume content n = Returned (BLOCK_SIZE, volume') /\
    BlockStore.cifsReadBlock BLOCK_SIZE fresh volume' m =
      BlockStore.cifsReadBlock BLOCK_SIZE fresh volume m /\
    Z.of_nat (length volume') = Z.max (Z.of_nat (length volume)) ((n + 1) * BLOCK_SIZE).
Proof.
  intros Hsize Hn Hm Hne Hlen Hinside. eexists. split; [now apply writeBlock_returns|].
  assert (length (take (Z.to_nat BLOCK_SIZE) content) = Z.to_nat BLOCK_SIZE) as Hbytes
    by (rewrite length_take_le; lia).
  split.
  - unfold BlockStore.cifsReadBlock. rewrite block_offset by assumption.
    rewrite pread_pwrite_other; [reflexivity|nia|]. rewrite Hbytes. nia.
  - rewrite pwrite_length, Hbytes. nia.
Qed.

Lemma block_write_frame_witness :
  let volume := replicate 16 97 ++ replicate 16 98 in
  let content := replicate 16 99 in
  0 < 16 /\ 0 <= 0 < 65536 /\ 0 <= 1 < 65536 /\ 1 <> 0 /\
  16 <= Z.of_nat (length content) /\ (1 + 1) * 16 <= Z.of_nat (length volume) /\
  exists volume',
    BlockStore.writeBlock 16 volume content 0 = Returned (16, volume') /\
    BlockStore.cifsReadBlock 16 (fun _ => 0) volume' 1 =
      BlockStore.cifsReadBlock 16 (fun _ => 0) volume 1 /\
    Z.of_nat (length volume') = Z.max (Z.of_nat (length volume)) ((0 + 1) * 16).
Proof.
  split; [lia|]. split; [lia|]. split; [lia|]. split; [lia|].
  split; [simpl; lia|]. split; [simpl; lia|].
  apply block_write_frame; simpl; lia.
Defined.

(** X14. A write past the end of the file creates the blocks in between:
    after writeBlock to block n every block m < n that starts at or after
    the old end of the file reads as BLOCK_SIZE zero bytes. *)
Theorem block_write_fills_gap (BLOCK_SIZE : Z) (fresh : nat -> Z)
    (volume content : list Z) (n m : Z) :
  0 < BLOCK_SIZE -> 0 <= n < 65536 -> 0 <= m < n ->
  BLOCK_SIZE <= Z.of_nat (length content) ->
  Z.of_nat (length volume) <= m * BLOCK_SIZE ->
  exists volume',
    BlockStore.writeBlock BLOCK_SIZE volume content n = Returned (BLOCK_SIZE, volume') /\
    BlockStore.cifsReadBlock BLOCK_SIZE fresh volume' m =
      (BLOCK_SIZE, replicate (Z.to_nat BLOCK_SIZE) 0) /\
    Z.of_nat (length volume') = (n + 1) * BLOCK_SIZE.
Proof.
  intros Hsize Hn Hm Hlen Hpast. eexists. split; [now apply writeBlock_returns|].
  assert (length (take (Z.to_nat BLOCK_SIZE) content) = Z.to_nat BLOCK_SIZE) as Hbytes
    by (rewrite length_take_le; lia).
  split.
  - apply cifsReadBlock_full; [assumption|lia|apply length_replicate|].
    apply pread_pwrite_gap; nia.
  - rewrite pwrite_length, Hbytes. nia.
Qed.

Lemma block_write_fills_gap_witness :
  let content := replicate 16 97 in
  0 < 16 /\ 0 <= 4 < 65536 /\ 0 <= 2 < 4 /\
  16 <= Z.of_nat (length content) /\ Z.of_nat (length (replicate 16 98)) <= 2 * 16 /\
  exists volume',
    BlockStore.writeBlock 16 (replicate 16 98) content 4 = Returned (16, volume') /\
    BlockStore.cifsReadBlock 16 (fun _ => 7) volume' 2 = (16, replicate (Z.to_nat 16) 0) /\
    Z.of_nat (length volume') = (4 + 1) * 16.
Proof.
  split; [lia|]. split; [lia|]. split; [lia|]. split; [simpl; lia|]. split; [simpl; lia|].
  apply block_write_fills_gap; simpl; lia.
Defined.

(** X15. cifsReadBlock always returns a buffer of BLOCK_SIZE bytes, also
    at the end of the file: the bytes that fread obtained come from the
    file, the others are whatever malloc returned; for a block that starts
    at or after the end of the file nothing is read at all. *)
Theorem block_read_short (BLOCK_SIZE : Z) (fresh : nat -> Z) (volume : list Z) (n : Z) :
  0 < BLOCK_SIZE -> 0 <= n < 65536 ->
  let r := BlockStore.cifsReadBlock BLOCK_SIZE fresh volume n in
  Z.of_nat (length (snd r)) = BLOCK_SIZE /\
  fst r = Z.min BLOCK_SIZE (Z.max 0 (Z.of_nat (length volume) - n * BLOCK_SIZE)) /\
  (forall i : nat, Z.of_nat i < fst r ->
     snd r !! i = volume !! (Z.to_nat (n * BLOCK_SIZE) + i)%nat) /\
  (forall i : nat, fst r <= Z.of_nat i < BLOCK_SIZE -> snd r !! i = Some (fresh i)).
Proof.
  intros Hsize Hn. unfold BlockStore.cifsReadBlock. cbn zeta. cbn [fst snd].
  rewrite block_offset by assumption.
  set (off := (Z.to_nat n * Z.to_nat BLOCK_SIZE)%nat).
  assert (Z.to_nat (n * BLOCK_SIZE) = off) as -> by (unfold off; lia).
  pose proof (pread_length volume off (Z.to_nat BLOCK_SIZE)) as Hgot.
  set (got := BlockStore.pread volume off (Z.to_nat BLOCK_SIZE)) in *.
  split; [|split; [|split]].
  - rewrite length_app, length_map, length_seq. lia.
  - unfold off in *. nia.
  - intros i Hi. rewrite lookup_app_l by lia.
    unfold got. rewrite pread_lookup.
    destruct (decide (i < Z.to_nat BLOCK_SIZE)%nat); [reflexivity|lia].
  - intros i Hi. rewrite lookup_app_r by lia.
    rewrite list_lookup_fmap, lookup_seq_lt by lia. cbn. f_equal. f_equal. lia.
Qed.

Lemma block_read_short_witness :
  0 < 16 /\ 0 <= 1 < 65536 /\
  let r := BlockStore.cifsReadBlock 16 (fun _ => 7) (replicate 20 97) 1 in
  Z.of_nat (length (snd r)) = 16 /\
  fst r = Z.min 16 (Z.max 0 (Z.of_nat (length (replicate 20 97)) - 1 * 16)) /\
  (forall i : nat, Z.of_nat i < fst r ->
     snd r !! i = replicate 20 97 !! (Z.to_nat (1 * 16) + i)%nat) /\
  (forall i : nat, fst r <= Z.of_nat i < 16 -> snd r !! i = Some ((fun _ => 7) i)).
Proof.
  split; [lia|]. split; [lia|].
  apply (block_read_short 16 (fun _ => 7) (replicate 20 97) 1); lia.
Defined.

Section BlockSequence.

Import BlockStore.

Lemma pwrite_append (file bytes : list Z) :
  pwrite file (length file) bytes = file ++ bytes.
Proof.
  unfold pwrite. rewrite take_ge, Nat.sub_diag by lia.
  rewrite drop_ge by lia. cbn [replicate]. now rewrite app_nil_l, app_nil_r.
Qed.

Variable BLOCK_SIZE : Z.
Hypothesis Hsize : 0 < BLOCK_SIZE.

Lemma write_blocks_append (contents : list (list Z)) :
  forall (volume : list Z) (first : Z),
    0 <= first -> first + Z.of_nat (length contents) <= 65536 ->
    length volume = (Z.to_nat first * Z.to_nat BLOCK_SIZE)%nat ->
    Forall (fun c => BLOCK_SIZE <= Z.of_nat (length c)) contents ->
    write_blocks BLOCK_SIZE volume contents first =
      Returned (volume ++ concat (take (Z.to_nat BLOCK_SIZE) <$> contents)).
Proof.
  induction contents as [|c rest IH]; intros volume first Hfirst Hcount Hvol Hall.
  - cbn. now rewrite app_nil_r.
  - cbn [length] in Hcount. apply Forall_cons in Hall as (Hc & Hrest).
    cbn [write_blocks]. rewrite writeBlock_returns by (assumption || lia).
    cbn [obind snd]. rewrite <- Hvol, pwrite_append.
    rewrite IH; [|lia|lia| |assumption].
    + cbn [fmap list_fmap concat]. now rewrite <- app_assoc.
    + rewrite length_app, length_take_le, Hvol by lia. lia.
Qed.

Lemma block_of_concat (blocks : list (list Z)) (n : nat) :
  Forall (fun b => length b = n) blocks ->
  forall (i : nat) (b : list Z),
    blocks !! i = Some b -> pread (concat blocks) (i * n) n = b.
Proof.
  unfold pread. induction blocks as [|b0 rest IH]; intros Hall i b Hb; [discriminate|].
  apply Forall_cons in Hall as (Hb0 & Hrest). cbn [concat].
  destruct i as [|i].
  - injection Hb as <-. cbn [Nat.mul drop]. apply take_app_length'. now symmetry.
  - cbn [Nat.mul]. rewrite drop_app_add' by (now symmetry). now apply IH.
Qed.

End BlockSequence.

(** X16. Blocks written one after the other from block 0 into an empty
    file, as the first loop of main in blockVolume.c does, make a file
    that is the concatenation of the blocks, and each block reads back
    from its own number. *)
Theorem blocks_written_in_sequence (BLOCK_SIZE : Z) (fresh : nat -> Z)
    (contents : list (list Z)) :
  0 < BLOCK_SIZE -> Z.of_nat (length contents) <= 65536 ->
  Forall (fun c => BLOCK_SIZE <= Z.of_nat (length c)) contents ->
  exists volume,
    BlockStore.write_blocks BLOCK_SIZE [] contents 0 = Returned volume /\
    volume = concat (take (Z.to_nat BLOCK_SIZE) <$> contents) /\
    forall (i : nat) (c : list Z),
      contents !! i = Some c ->
      BlockStore.cifsReadBlock BLOCK_SIZE fresh volume (Z.of_nat i) =
        (BLOCK_SIZE, take (Z.to_nat BLOCK_SIZE) c).
Proof.
  intros Hsize Hcount Hall. eexists. split; [|split; [reflexivity|]].
  - rewrite (write_blocks_append BLOCK_SIZE Hsize contents [] 0); [reflexivity|lia|lia|reflexivity|assumption].
  - intros i c Hc. apply lookup_lt_Some in Hc as Hlt.
    assert (length (take (Z.to_nat BLOCK_SIZE) c) = Z.to_nat BLOCK_SIZE) as Hbytes.
    { rewrite length_take_le; [reflexivity|].
      pose proof (proj1 (Forall_lookup _ contents) Hall i c Hc) as Hlong.
      cbv beta in Hlong. lia. }
    apply cifsReadBlock_full; [assumption|lia|assumption|].
    rewrite Nat2Z.id. apply block_of_concat.
    + apply Forall_fmap. eapply Forall_impl; [exact Hall|].
      intros c' Hc'. unfold compose. cbv beta in *. rewrite length_take_le; lia.
    + rewrite list_lookup_fmap, Hc. reflexivity.
Qed.

(* The ten blocks of blockVolume.c: block i is sixteen bytes 'a' + i, taken
   from a buffer of seventeen bytes. *)
Lemma blocks_written_in_sequence_witness :
  let contents := (fun i => replicate 16 (97 + Z.of_nat i) ++ [0]) <$> seq 0 10 in
  0 < 16 /\ Z.of_nat (length contents) <= 65536 /\
  Forall (fun c => 16 <= Z.of_nat (length c)) contents /\
  exists volume,
    BlockStore.write_blocks 16 [] contents 0 = Returned volume /\
    volume = concat (take (Z.to_nat 16) <$> contents) /\
    forall (i : nat) (c : list Z),
      contents !! i = Some c ->
      BlockStore.cifsReadBlock 16 (fun _ => 0) volume (Z.of_nat i) =
        (16, take (Z.to_nat 16) c).
Proof.
  assert (Forall (fun c => 16 <= Z.of_nat (length c))
            ((fun i => replicate 16 (97 + Z.of_nat i) ++ [0]) <$> seq 0 10)) as Hall
    by (repeat constructor; simpl; lia).
  split; [lia|]. split; [simpl; lia|]. split; [exact Hall|].
  apply blocks_written_in_sequence; [lia|simpl; lia|exact Hall].
Defined.

(** ** Generated content *)

Section Generated.

Import Content.

Variables (rand_values : nat -> N) (fresh : nat -> Z).

Lemma store_middle (done rest : list Z) (x v : Z) :
  store (done ++ x :: rest) (Z.of_nat (length done)) v = Returned (done ++ v :: rest).
Proof.
  unfold store. destruct (Z.ltb_spec (Z.of_nat (length done)) 0); [lia|].
  rewrite Nat2Z.id, list_lookup_middle by reflexivity.
  rewrite insert_app_r_alt, Nat.sub_diag by lia. reflexivity.
Qed.

(* The loop, started with [done] already written and at least [steps]
   bytes of the buffer left. *)
Lemma fill_result (steps : nat) :
  forall (k : nat) (done rest : list Z),
    (steps <= length rest)%nat ->
    fill steps rand_values k (Z.of_nat (length done)) (done ++ rest) =
      Returned (done ++ (printable rand_values <$> seq k steps) ++ drop steps rest,
                (k + steps)%nat).
Proof.
  induction steps as [|steps IH]; intros k done rest Hroom.
  - cbn. now rewrite Nat.add_0_r.
  - destruct rest as [|x rest]; [cbn in Hroom; lia|]. cbn [length] in Hroom.
    cbn [fill]. rewrite store_middle. cbn [obind].
    replace (done ++ printable rand_values k :: rest)
      with ((done ++ [printable rand_values k]) ++ rest) by (now rewrite <- app_assoc).
    replace (Z.of_nat (length done) + 1)
      with (Z.of_nat (length (done ++ [printable rand_values k])))
      by (rewrite length_app; cbn; lia).
    rewrite IH by lia. cbn [seq fmap list_fmap drop].
    rewrite <- !app_assoc. do 2 f_equal. lia.
Qed.

Lemma printable_range (k : nat) : 32 <= printable rand_values k <= 125.
Proof.
  unfold printable.
  pose proof (Z.mod_pos_bound (Z.of_N (rand_values k)) 94 eq_refl). lia.
Qed.

Lemma c_string_printable (chars : list Z) (rest : list Z) :
  Forall (fun c => c <> 0) chars -> c_string (chars ++ 0 :: rest) = chars.
Proof.
  induction chars as [|c chars IH]; intros Hall; [reflexivity|].
  apply Forall_cons in Hall as (Hc & Hrest). cbn [app c_string].
  destruct (Z.eqb_spec c 0); [contradiction|]. now rewrite IH.
Qed.

Lemma generate_positive (k : nat) (size : Z) :
  0 < size ->
  cifsGenerateContent rand_values fresh k size =
    Returned ((printable rand_values <$> seq k (Z.to_nat (size - 1))) ++ [0],
              (k + Z.to_nat (size - 1))%nat).
Proof.
  intros Hsize. unfold cifsGenerateContent.
  destruct (Z.leb_spec size 0); [lia|].
  replace (Z.to_nat size) with (Z.to_nat (size - 1) + 1)%nat by lia.
  rewrite seq_app, fmap_app. cbn [seq fmap list_fmap].
  set (steps := Z.to_nat (size - 1)).
  set (junk := fresh <$> seq 0 steps).
  assert (length junk = steps) as Hjunk
    by (unfold junk; now rewrite length_fmap, length_seq).
  pose proof (fill_result steps k [] (junk ++ [fresh (0 + steps)%nat])) as Hfill.
  cbn [app length] in Hfill. change (Z.of_nat 0) with 0 in Hfill.
  rewrite Hfill by (rewrite length_app; cbn; lia). cbn [obind fst snd].
  rewrite drop_app_length' by (now symmetry).
  replace (size - 1) with (Z.of_nat (length (printable rand_values <$> seq k steps)))
    by (rewrite length_fmap, length_seq; unfold steps; lia).
  rewrite store_middle. reflexivity.
Qed.

End Generated.

(** X17. For a positive size cifsGenerateContent returns a buffer of
    exactly size bytes: size - 1 characters, each between ' ' (32) and '}'
    (125) and computed from one value of rand(), followed by the
    terminating zero; as a C string it has length size - 1. *)
Theorem cifsGenerateContent_printable (rand_values : nat -> N) (fresh : nat -> Z)
    (k : nat) (size : Z) :
  0 < size ->
  exists content,
    Content.cifsGenerateContent rand_values fresh k size =
      Returned (content, (k + Z.to_nat (size - 1))%nat) /\
    Z.of_nat (length content) = size /\
    content !! Z.to_nat (size - 1) = Some 0 /\
    (forall i : nat, Z.of_nat i < size - 1 ->
       exists c, content !! i = Some c /\ 32 <= c <= 125 /\
                 c = Content.printable rand_values (k + i)) /\
    Z.of_nat (length (Content.c_string content)) = size - 1.
Proof.
  intros Hsize. eexists. split; [now apply generate_positive|].
  set (chars := Content.printable rand_values <$> seq k (Z.to_nat (size - 1))).
  assert (length chars = Z.to_nat (size - 1)) as Hchars
    by (unfold chars; now rewrite length_fmap, length_seq).
  split; [rewrite length_app, Hchars; cbn; lia|].
  split; [now apply list_lookup_middle|].
  split.
  - intros i Hi. exists (Content.printable rand_values (k + i)).
    split; [|split; [apply printable_range|reflexivity]].
    rewrite lookup_app_l by lia. unfold chars.
    rewrite list_lookup_fmap, lookup_seq_lt by lia. reflexivity.
  - rewrite c_string_printable, Hchars; [lia|].
    unfold chars. apply Forall_fmap, Forall_forall. intros j _.
    unfold compose. pose proof (printable_range rand_values j). lia.
Qed.

Lemma cifsGenerateContent_printable_witness :
  0 < 10 /\
  exists content,
    Content.cifsGenerateContent (fun k => N.of_nat (7 * k)) (fun _ => 0) 0%nat 10 =
      Returned (content, (0 + Z.to_nat (10 - 1))%nat) /\
    Z.of_nat (length content) = 10 /\
    content !! Z.to_nat (10 - 1) = Some 0 /\
    (forall i : nat, Z.of_nat i < 10 - 1 ->
       exists c, content !! i = Some c /\ 32 <= c <= 125 /\
                 c = Content.printable (fun k => N.of_nat (7 * k)) (0 + i)) /\
    Z.of_nat (length (Content.c_string content)) = 10 - 1.
Proof.
  split; [lia|]. apply cifsGenerateContent_printable. lia.
Defined.

(** X18. For a size that is not positive cifsGenerateContent takes
    rand() % 1000 as the size. When that is zero, the buffer has no byte
    and the write of the terminating zero to content[-1] is out of bounds;
    otherwise the call behaves like a call with that size, one value of
    rand() later. *)
Theorem cifsGenerateContent_random_size (rand_values : nat -> N) (fresh : nat -> Z)
    (k : nat) (size : Z) :
  size <= 0 ->
  let size' := Z.of_N (rand_values k) mod 1000 in
  (size' = 0 ->
   Content.cifsGenerateContent rand_values fresh k size = Fault OutOfBounds) /\
  (size' <> 0 ->
   Content.cifsGenerateContent rand_values fresh k size =
     Content.cifsGenerateContent rand_values fresh (S k) size').
Proof.
  intros Hsize size'. unfold Content.cifsGenerateContent.
  destruct (Z.leb_spec size 0); [|lia]. fold size'.
  pose proof (Z.mod_pos_bound (Z.of_N (rand_values k)) 1000 eq_refl) as Hrange.
  fold size' in Hrange. split; intros Hzero.
  - rewrite Hzero. reflexivity.
  - destruct (Z.leb_spec size' 0); [lia|reflexivity].
Qed.

Lemma cifsGenerateContent_random_size_witness :
  0 <= 0 /\
  let size' := Z.of_N ((fun _ => 2000%N) 0%nat) mod 1000 in
  (size' = 0 ->
   Content.cifsGenerateContent (fun _ => 2000%N) (fun _ => 0) 0%nat 0 = Fault OutOfBounds) /\
  (size' <> 0 ->
   Content.cifsGenerateContent (fun _ => 2000%N) (fun _ => 0) 0%nat 0 =
     Content.cifsGenerateContent (fun _ => 2000%N) (fun _ => 0) 1%nat size').
Proof.
  split; [lia|].
  apply (cifsGenerateContent_random_size (fun _ => 2000%N) (fun _ => 0) 0%nat 0). lia.
Defined.

(** ** The name hash, character by character *)

Section HashLoop.

Lemma zero_character (a : ascii) :
  (uchar (Z.of_N (N_of_ascii a)) =? 0) = Ascii.eqb a Ascii.zero.
Proof. destruct a as [[] [] [] [] [] [] [] []]; reflexivity. Qed.

Lemma hash_loop_app (s1 s2 : string) :
  nul_free s1 = true ->
  forall h, hash_loop (String.append s1 s2) h = hash_loop s2 (hash_loop s1 h).
Proof.
  induction s1 as [|a s1 IH]; intros Hfree h; [reflexivity|].
  cbn [nul_free] in Hfree. apply andb_true_iff in Hfree as (Ha & Hrest).
  change (String.append (String a s1) s2) with (String a (String.append s1 s2)).
  cbn [hash_loop]. rewrite zero_character.
  destruct (Ascii.eqb a Ascii.zero); [discriminate|]. now apply IH.
Qed.

End HashLoop.

(** X19. The hash is computed left to right: for a string s1 without a
    zero character, the loop over s1 followed by s2 is the loop over s2
    started from the value reached after s1. *)
Theorem hash_loop_composes (s1 s2 : string) (h : Z) :
  nul_free s1 = true ->
  hash_loop (String.append s1 s2) h = hash_loop s2 (hash_loop s1 h).
Proof.
  revert h. induction s1 as [|a s1 IH]; intros h Hfree; [reflexivity|].
  cbn [nul_free] in Hfree. apply andb_true_iff in Hfree as (Ha & Hrest).
  change (String.append (String a s1) s2) with (String a (String.append s1 s2)).
  cbn [hash_loop]. rewrite zero_character.
  destruct (Ascii.eqb a Ascii.zero); [discriminate|]. now apply IH.
Qed.

Lemma hash_loop_composes_witness :
  nul_free "file" = true /\
  hash_loop (String.append "file" "1") 5381 = hash_loop "1" (hash_loop "file" 5381).
Proof.
  split; [reflexivity|]. apply hash_loop_composes. reflexivity.
Defined.

(** X20. hash reads its argument as a C string: whatever follows the first
    zero character does not change the result. *)
Theorem hash_stops_at_zero (s1 s2 : string) :
  nul_free s1 = true ->
  hash (String.append s1 (String Ascii.zero s2)) = hash s1.
Proof.
  intros Hfree. unfold hash. rewrite hash_loop_app by assumption.
  cbn [hash_loop]. rewrite zero_character. reflexivity.
Qed.

Lemma hash_stops_at_zero_witness :
  nul_free "file1" = true /\
  hash (String.append "file1" (String Ascii.zero "rest")) = hash "file1".
Proof.
  split; [reflexivity|]. apply hash_stops_at_zero. reflexivity.
Defined.

(** ** Formatting, once more *)

Section FormattedWorld.

Lemma cifsCreateFileSystem_world (e : env) (w : world) :
  malloc_ok e = true -> fopen_ok e = true ->
  cifsCreateFileSystem e w = Returned (CIFS_NO_ERROR, formatted_world e w).
Proof.
  intros Hmalloc Hfopen.
  unfold cifsCreateFileSystem. rewrite Hmalloc, Hfopen. cbn [negb].
  vm_compute. reflexivity.
Qed.

Lemma formatted_bitvector_length : length formatted_bitvector = Z.to_nat 8191.
Proof.
  unfold formatted_bitvector. rewrite length_app, length_replicate. reflexivity.
Qed.

Lemma formatted_bitvector_blocks (e : env) (w : world) (i : Z) :
  0 <= i < 31 ->
  formatted_volume e w !! i = Some (bitvector_block formatted_bitvector i).
Proof.
  intros Hi.
  assert (exists n : nat, (n < 31)%nat /\ i = Z.of_nat n) as (n & Hn & ->)
    by (exists (Z.to_nat i); lia).
  do 31 (destruct n as [|n]; [vm_compute; reflexivity|]). lia.
Qed.

Lemma formatted_volume_blocks (e : env) (w : world) :
  dom (formatted_volume e w) = list_to_set (seqZ 0 34 ++ [65534]).
Proof. vm_compute. reflexivity. Qed.

(* No call writes the blocks between the index block of the root folder
   and the last block. *)
Lemma formatted_volume_gap (e : env) (w : world) (n : Z) :
  33 < n < 65534 -> formatted_volume e w !! n = None.
Proof.
  intros Hn. apply not_elem_of_dom. rewrite formatted_volume_blocks.
  rewrite elem_of_list_to_set, elem_of_app, elem_of_seqZ, list_elem_of_singleton.
  lia.
Qed.

Lemma formatted_volume_end (e : env) (w : world) (n : Z) :
  65534 < n -> formatted_volume e w !! n = None.
Proof.
  intros Hn. apply not_elem_of_dom. rewrite formatted_volume_blocks.
  rewrite elem_of_list_to_set, elem_of_app, elem_of_seqZ, list_elem_of_singleton.
  lia.
Qed.

Lemma formatted_volume_size (e : env) (w : world) :
  volume_blocks (formatted_volume e w) = CIFS_NUMBER_OF_BLOCKS.
Proof. vm_compute. reflexivity. Qed.

Lemma formatted_superblock_block (e : env) (w : world) :
  formatted_volume e w !! ushort CIFS_SUPERBLOCK_INDEX =
    Some (SuperblockImage formatted_superblock).
Proof. vm_compute. reflexivity. Qed.

End FormattedWorld.

(** X21. cifsCreateFileSystem returns CIFS_NO_ERROR exactly when the
    allocation of the context and the opening of the volume succeed;
    otherwise it returns CIFS_ALLOC_ERROR and leaves the volume as it
    was. On success the whole volume is rewritten: apart from the umask
    of the process nothing of the previous state remains. *)
Theorem cifsCreateFileSystem_outcome (e : env) (w : world) :
  cifsCreateFileSystem e w =
    (if malloc_ok e && fopen_ok e
     then Returned (CIFS_NO_ERROR, formatted_world e w)
     else Returned (CIFS_ALLOC_ERROR, with_context w None)) /\
  cifsVolume (with_context w None) = cifsVolume w /\
  forall w2, process_umask w2 = process_umask w ->
             formatted_world e w2 = formatted_world e w.
Proof.
  split; [|split; [reflexivity|]].
  - destruct (malloc_ok e) eqn:Hmalloc, (fopen_ok e) eqn:Hfopen; cbn [andb].
    + now apply cifsCreateFileSystem_world.
    + unfold cifsCreateFileSystem. now rewrite Hmalloc, Hfopen.
    + unfold cifsCreateFileSystem. now rewrite Hmalloc.
    + unfold cifsCreateFileSystem. now rewrite Hmalloc.
  - intros w2 Hmask.
    unfold formatted_world, formatted_volume, root_descriptor. now rewrite Hmask.
Qed.

(** X22. The calls of cifsWriteBlock in a successful cifsCreateFileSystem
    write blocks 0..30 with bytes 256 i .. 256 i + 255 of the in-memory
    bitvector, block 31 with the superblock, block 32 with the descriptor
    of the empty root folder, block 33 with its index block of 127 invalid
    entries, and block 65534 with zeros. That last write gives the volume
    file its 65535 blocks: no call writes the blocks 34..65533, which
    come into existence with it and read as zeros, and there is no block
    from 65535 on. The bitvector has 8191 bytes, of which the 31 blocks
    hold the first 7936. *)
Theorem formatted_volume_layout (e : env) (w : world) :
  malloc_ok e = true -> fopen_ok e = true ->
  exists w' ctx,
    cifsCreateFileSystem e w = Returned (CIFS_NO_ERROR, w') /\
    cifsContext w' = Some ctx /\
    (forall i, 0 <= i < CIFS_SUPERBLOCK_INDEX ->
       cifsVolume w' !! i = Some (bitvector_block (bitvector ctx) i)) /\
    cifsVolume w' !! CIFS_SUPERBLOCK_INDEX = Some (SuperblockImage (superblock ctx)) /\
    superblock ctx = formatted_superblock /\
    volume_descriptor (cifsVolume w') (cifsRootNodeIndex (superblock ctx)) =
      Some (root_descriptor e w) /\
    cifsVolume w' !! block_ref (root_descriptor e w) = Some (BlockImage root_index_block) /\
    content root_index_block = index (replicate 127 CIFS_INVALID_INDEX) /\
    cifsVolume w' !! (CIFS_NUMBER_OF_BLOCKS - 1) = Some (RawImage (replicate 256 0)) /\
    volume_blocks (cifsVolume w') = CIFS_NUMBER_OF_BLOCKS /\
    (forall n, block_ref (root_descriptor e w) < n < CIFS_NUMBER_OF_BLOCKS - 1 ->
       cifsVolume w' !! n = None /\
       block_of_volume (cifsVolume w') n = Some (RawImage (replicate 256 0))) /\
    (forall n, CIFS_NUMBER_OF_BLOCKS <= n -> block_of_volume (cifsVolume w') n = None) /\
    Z.of_nat (length (bitvector ctx)) = 8191 /\
    CIFS_SUPERBLOCK_INDEX * CIFS_BLOCK_SIZE = 7936.
Proof.
  intros Hmalloc Hfopen. exists (formatted_world e w), formatted_context.
  split; [now apply cifsCreateFileSystem_world|]. split; [reflexivity|].
  split; [intros i Hi; now apply formatted_bitvector_blocks|].
  split; [apply formatted_superblock_block|]. split; [reflexivity|].
  split; [vm_compute; reflexivity|]. split; [vm_compute; reflexivity|].
  split; [reflexivity|]. split; [vm_compute; reflexivity|].
  split; [apply formatted_volume_size|].
  split; [|split; [|split; [|reflexivity]]].
  - intros n Hn. change (block_ref (root_descriptor e w)) with 33 in Hn.
    change (CIFS_NUMBER_OF_BLOCKS - 1) with 65534 in Hn.
    cbn [formatted_world cifsVolume]. unfold block_of_volume.
    rewrite (formatted_volume_gap e w n Hn), formatted_volume_size.
    split; [reflexivity|].
    change CIFS_NUMBER_OF_BLOCKS with 65535.
    destruct (Z.leb_spec 0 n); [|lia]. destruct (Z.ltb_spec n 65535); [|lia].
    reflexivity.
  - intros n Hn. change CIFS_NUMBER_OF_BLOCKS with 65535 in Hn.
    cbn [formatted_world cifsVolume]. unfold block_of_volume.
    rewrite (formatted_volume_end e w n) by lia. rewrite formatted_volume_size.
    change CIFS_NUMBER_OF_BLOCKS with 65535.
    destruct (Z.ltb_spec n 65535); [lia|]. now rewrite andb_false_r.
  - cbn [formatted_context bitvector]. rewrite formatted_bitvector_length. reflexivity.
Qed.

Lemma formatted_volume_layout_witness :
  malloc_ok test_env = true /\ fopen_ok test_env = true /\
  exists w' ctx,
    cifsCreateFileSystem test_env initial_world = Returned (CIFS_NO_ERROR, w') /\
    cifsContext w' = Some ctx /\
    (forall i, 0 <= i < CIFS_SUPERBLOCK_INDEX ->
       cifsVolume w' !! i = Some (bitvector_block (bitvector ctx) i)) /\
    cifsVolume w' !! CIFS_SUPERBLOCK_INDEX = Some (SuperblockImage (superblock ctx)) /\
    superblock ctx = formatted_superblock /\
    volume_descriptor (cifsVolume w') (cifsRootNodeIndex (superblock ctx)) =
      Some (root_descriptor test_env initial_world) /\
    cifsVolume w' !! block_ref (root_descriptor test_env initial_world) =
      Some (BlockImage root_index_block) /\
    content root_index_block = index (replicate 127 CIFS_INVALID_INDEX) /\
    cifsVolume w' !! (CIFS_NUMBER_OF_BLOCKS - 1) = Some (RawImage (replicate 256 0)) /\
    volume_blocks (cifsVolume w') = CIFS_NUMBER_OF_BLOCKS /\
    (forall n, block_ref (root_descriptor test_env initial_world) < n
                 < CIFS_NUMBER_OF_BLOCKS - 1 ->
       cifsVolume w' !! n = None /\
       block_of_volume (cifsVolume w') n = Some (RawImage (replicate 256 0))) /\
    (forall n, CIFS_NUMBER_OF_BLOCKS <= n -> block_of_volume (cifsVolume w') n = None) /\
    Z.of_nat (length (bitvector ctx)) = 8191 /\
    CIFS_SUPERBLOCK_INDEX * CIFS_BLOCK_SIZE = 7936.
Proof.
  split; [reflexivity|]. split; [reflexivity|].
  apply formatted_volume_layout; reflexivity.
Defined.

(** X23. The bitvector of a formatted volume has a bit for the blocks
    0..65527 only: for a block number from 65528 on, the last block 65534
    that cifsCreateFileSystem writes included, each of cifsSetBit,
    cifsClearBit and cifsFlipBit accesses a byte outside the vector. *)
Theorem last_blocks_have_no_bit (e : env) (w : world) (i : Z)
    (op : list Z -> Z -> outcome (list Z)) :
  malloc_ok e = true -> fopen_ok e = true ->
  65528 <= i < 65536 ->
  In op [cifsSetBit; cifsClearBit; cifsFlipBit] ->
  exists w' ctx,
    cifsCreateFileSystem e w = Returned (CIFS_NO_ERROR, w') /\
    cifsContext w' = Some ctx /\
    op (bitvector ctx) i = Fault OutOfBounds /\
    is_Some (cifsVolume w' !! (CIFS_NUMBER_OF_BLOCKS - 1)).
Proof.
  intros Hmalloc Hfopen Hi Hop. exists (formatted_world e w), formatted_context.
  split; [now apply cifsCreateFileSystem_world|]. split; [reflexivity|].
  split; [|eexists; vm_compute; reflexivity].
  assert (formatted_bitvector !! Z.to_nat (i / 8) = None) as Hout.
  { apply lookup_ge_None. rewrite formatted_bitvector_length.
    assert (8191 <= i / 8) by (apply Z.div_le_lower_bound; lia). lia. }
  cbn [formatted_context bitvector In] in *.
  destruct Hop as [<-|[<-|[<-|[]]]].
  - apply (read_modify_write_out set_byte); [lia|exact Hout].
  - apply (read_modify_write_out clear_byte); [lia|exact Hout].
  - apply (read_modify_write_out flip_byte); [lia|exact Hout].
Qed.

Lemma last_blocks_have_no_bit_witness :
  malloc_ok test_env = true /\ fopen_ok test_env = true /\
  65528 <= 65534 < 65536 /\
  In cifsSetBit [cifsSetBit; cifsClearBit; cifsFlipBit] /\
  exists w' ctx,
    cifsCreateFileSystem test_env initial_world = Returned (CIFS_NO_ERROR, w') /\
    cifsContext w' = Some ctx /\
    cifsSetBit (bitvector ctx) 65534 = Fault OutOfBounds /\
    is_Some (cifsVolume w' !! (CIFS_NUMBER_OF_BLOCKS - 1)).
Proof.
  split; [reflexivity|]. split; [reflexivity|]. split; [lia|].
  split; [left; reflexivity|].
  apply (last_blocks_have_no_bit test_env initial_world 65534 cifsSetBit);
    [reflexivity|reflexivity|lia|left; reflexivity].
Defined.

(** X24. The first block that cifsFindFreeBlock hands out on a freshly
    formatted bitvector is block 24, one of the blocks to which
    cifsCreateFileSystem has written the bitvector itself. *)
Theorem first_allocation_after_format (e : env) (w : world) :
  malloc_ok e = true -> fopen_ok e = true ->
  exists w' ctx,
    cifsCreateFileSystem e w = Returned (CIFS_NO_ERROR, w') /\
    cifsContext w' = Some ctx /\
    cifsFindFreeBlock (bitvector ctx) = Returned 24 /\
    24 < CIFS_SUPERBLOCK_INDEX /\
    cifsVolume w' !! 24 = Some (bitvector_block (bitvector ctx) 24).
Proof.
  intros Hmalloc Hfopen. exists (formatted_world e w), formatted_context.
  split; [now apply cifsCreateFileSystem_world|]. split; [reflexivity|].
  split; [vm_compute; reflexivity|]. split; [reflexivity|].
  apply formatted_bitvector_blocks. lia.
Qed.

Lemma first_allocation_after_format_witness :
  malloc_ok test_env = true /\ fopen_ok test_env = true /\
  exists w' ctx,
    cifsCreateFileSystem test_env initial_world = Returned (CIFS_NO_ERROR, w') /\
    cifsContext w' = Some ctx /\
    cifsFindFreeBlock (bitvector ctx) = Returned 24 /\
    24 < CIFS_SUPERBLOCK_INDEX /\
    cifsVolume w' !! 24 = Some (bitvector_block (bitvector ctx) 24).
Proof.
  split; [reflexivity|]. split; [reflexivity|].
  apply first_allocation_after_format; reflexivity.
Defined.

(** ** Mounting and unmounting *)

(** X25. When fopen opens the volume and the context can be allocated,
    cifsMountFileSystem takes nothing but the superblock from the volume:
    two volumes with the same superblock are mounted with the same
    context, whose bitvector is cifsNumberOfBlocks / 8 bytes of fresh
    memory, whatever the bitvector blocks of the volume hold. When fopen
    fails, the call does not return: the NULL stream reaches ferror. *)
Theorem cifsMountFileSystem_reads_superblock_only (e : env) (w1 w2 : world)
    (sb : CIFS_SUPERBLOCK_TYPE) :
  fopen_ok e = true -> malloc_ok e = true ->
  cifsVolume w1 !! ushort CIFS_SUPERBLOCK_INDEX = Some (SuperblockImage sb) ->
  cifsVolume w2 !! ushort CIFS_SUPERBLOCK_INDEX = Some (SuperblockImage sb) ->
  (exists ctx,
     cifsMountFileSystem_call e w1 = Returned (CIFS_NO_ERROR, with_context w1 (Some ctx)) /\
     cifsMountFileSystem_call e w2 = Returned (CIFS_NO_ERROR, with_context w2 (Some ctx)) /\
     superblock ctx = sb /\
     bitvector ctx = map (fresh_memory e) (seq 0 (Z.to_nat (cifsNumberOfBlocks sb / 8)))) /\
  (forall e', fopen_ok e' = false ->
     cifsMountFileSystem_call e' w1 = Fault NullStream /\
     cifsMountFileSystem_call e' w2 = Fault NullStream).
Proof.
  intros Hfopen Hmalloc Hsuper1 Hsuper2. split.
  - exists (mounted_context e sb).
    split; [now apply cifsMountFileSystem_call_result|].
    split; [now apply cifsMountFileSystem_call_result|].
    split; reflexivity.
  - intros e' Hfail. unfold cifsMountFileSystem_call. rewrite Hfail. split; reflexivity.
Qed.

Lemma cifsMountFileSystem_reads_superblock_only_witness :
  let w1 := formatted_world test_env initial_world in
  let w2 := {| cifsVolume := {[ 31 := SuperblockImage formatted_superblock ]};
               cifsContext := None; process_umask := 0 |} in
  fopen_ok test_env = true /\ malloc_ok test_env = true /\
  cifsVolume w1 !! ushort CIFS_SUPERBLOCK_INDEX = Some (SuperblockImage formatted_superblock) /\
  cifsVolume w2 !! ushort CIFS_SUPERBLOCK_INDEX = Some (SuperblockImage formatted_superblock) /\
  (exists ctx,
     cifsMountFileSystem_call test_env w1 =
       Returned (CIFS_NO_ERROR, with_context w1 (Some ctx)) /\
     cifsMountFileSystem_call test_env w2 =
       Returned (CIFS_NO_ERROR, with_context w2 (Some ctx)) /\
     superblock ctx = formatted_superblock /\
     bitvector ctx = map (fresh_memory test_env)
                         (seq 0 (Z.to_nat (cifsNumberOfBlocks formatted_superblock / 8)))) /\
  (forall e', fopen_ok e' = false ->
     cifsMountFileSystem_call e' w1 = Fault NullStream /\
     cifsMountFileSystem_call e' w2 = Fault NullStream).
Proof.
  split; [reflexivity|]. split; [reflexivity|].
  split; [vm_compute; reflexivity|]. split; [vm_compute; reflexivity|].
  apply cifsMountFileSystem_reads_superblock_only;
    [reflexivity|reflexivity|vm_compute; reflexivity|vm_compute; reflexivity].
Defined.

(** X26. cifsUmountFileSystem stores the superblock of the context in
    block 31, changes no other block and releases the context, after
    which a second cifsUmountFileSystem has no context to work on; a
    cifsMountFileSystem that follows, for which fopen opens the volume
    and the context can be allocated, reads the same superblock back. *)
Theorem unmount_then_mount (e : env) (w : world) (ctx : CIFS_CONTEXT_TYPE) :
  fopen_ok e = true -> malloc_ok e = true -> cifsContext w = Some ctx ->
  exists w1 w2 ctx',
    cifsUmountFileSystem w = Returned (CIFS_NO_ERROR, w1) /\
    cifsVolume w1 !! ushort CIFS_SUPERBLOCK_INDEX = Some (SuperblockImage (superblock ctx)) /\
    (forall k, k <> ushort CIFS_SUPERBLOCK_INDEX -> cifsVolume w1 !! k = cifsVolume w !! k) /\
    cifsContext w1 = None /\
    cifsUmountFileSystem w1 = Fault NullContext /\
    cifsMountFileSystem_call e w1 = Returned (CIFS_NO_ERROR, w2) /\
    cifsContext w2 = Some ctx' /\ superblock ctx' = superblock ctx.
Proof.
  intros Hfopen Hmalloc Hctx.
  set (w1 := {| cifsVolume := cifsWriteBlock (cifsVolume w)
                                (SuperblockImage (superblock ctx)) CIFS_SUPERBLOCK_INDEX;
                cifsContext := None;
                process_umask := process_umask w |}).
  assert (cifsVolume w1 !! ushort CIFS_SUPERBLOCK_INDEX =
            Some (SuperblockImage (superblock ctx))) as Hwritten
    by apply lookup_insert_eq.
  exists w1, (with_context w1 (Some (mounted_context e (superblock ctx)))),
         (mounted_context e (superblock ctx)).
  split; [unfold cifsUmountFileSystem; now rewrite Hctx|].
  split; [exact Hwritten|].
  split; [intros k Hk; cbn [w1 cifsVolume]; unfold cifsWriteBlock; now apply lookup_insert_ne|].
  split; [reflexivity|]. split; [reflexivity|].
  split; [now apply cifsMountFileSystem_call_result|split; reflexivity].
Qed.

Lemma unmount_then_mount_witness :
  fopen_ok test_env = true /\ malloc_ok test_env = true /\
  cifsContext full_world = Some full_context /\
  exists w1 w2 ctx',
    cifsUmountFileSystem full_world = Returned (CIFS_NO_ERROR, w1) /\
    cifsVolume w1 !! ushort CIFS_SUPERBLOCK_INDEX =
      Some (SuperblockImage (superblock full_context)) /\
    (forall k, k <> ushort CIFS_SUPERBLOCK_INDEX ->
               cifsVolume w1 !! k = cifsVolume full_world !! k) /\
    cifsContext w1 = None /\
    cifsUmountFileSystem w1 = Fault NullContext /\
    cifsMountFileSystem_call test_env w1 = Returned (CIFS_NO_ERROR, w2) /\
    cifsContext w2 = Some ctx' /\ superblock ctx' = superblock full_context.
Proof.
  split; [reflexivity|]. split; [reflexivity|]. split; [reflexivity|].
  apply unmount_then_mount; reflexivity.
Defined.

(** ** cifsCreateFile, once more *)

Section CreateOnceMore.

Variables (u : undeclared) (e : env).

(* What one call does to the globals and which descriptor it builds. *)
Lemma cifsCreateFile_effect (w : world) (ctx : CIFS_CONTEXT_TYPE)
    (sb : CIFS_SUPERBLOCK_TYPE) (filePath : string) (type_ : CIFS_CONTENT_TYPE) :
  cifsContext w = Some ctx ->
  cifsVolume w !! ushort CIFS_SUPERBLOCK_INDEX = Some (SuperblockImage sb) ->
  exists r fd,
    cifsCreateFile u e w filePath type_ = Returned r /\
    cifsVolume (create_world r) = cifsVolume w /\
    cifsContext (create_world r) = Some (with_superblock ctx sb) /\
    process_umask (create_world r) = Z.land (umask (fuseContext e)) 511 /\
    descriptor_of (freeBlk r) = Some fd /\
    name fd = "file1"%string /\ type fd = CIFS_FILE_CONTENT_TYPE /\
    size fd = 0 /\ owner fd = uid (fuseContext e) /\
    accessRights fd = process_umask w.
Proof.
  intros Hctx Hsuper. unfold cifsCreateFile. rewrite Hctx.
  cbn [next_identifier sys_umask]. unfold cifsReadSuperblock.
  cbn [cifsVolume]. rewrite Hsuper. cbn [obind].
  eexists _, _. split; [reflexivity|]. repeat split.
Qed.

(* A sequence of calls changes the context in its superblock only, which
   stays the one of the volume. *)
Lemma create_files_context (sb : CIFS_SUPERBLOCK_TYPE)
    (requests : list (string * CIFS_CONTENT_TYPE)) :
  forall (w : world) (ctx : CIFS_CONTEXT_TYPE),
    cifsContext w = Some ctx ->
    superblock ctx = sb ->
    cifsVolume w !! ushort CIFS_SUPERBLOCK_INDEX = Some (SuperblockImage sb) ->
    exists blocks w',
      create_files u e w requests = Returned (blocks, w') /\
      cifsVolume w' = cifsVolume w /\
      cifsContext w' = Some ctx.
Proof.
  induction requests as [|[filePath type_] rest IH]; intros w ctx Hctx Hsb Hsuper.
  - exists [], w. repeat split; assumption.
  - destruct (cifsCreateFile_effect w ctx sb filePath type_ Hctx Hsuper)
      as (r & fd & Hr & Hvol & Hctx' & _).
    assert (with_superblock ctx sb = ctx) as Hsame
      by (destruct ctx; cbn in *; now subst).
    rewrite Hsame in Hctx'.
    destruct (IH (create_world r) ctx Hctx' Hsb) as (blocks & w' & Hrest & Hvol' & Hctx'');
      [now rewrite Hvol|].
    exists (freeBlk r :: blocks), w'. cbn [create_files].
    rewrite Hr. cbn [obind]. rewrite Hrest. cbn [obind fst snd].
    split; [reflexivity|]. split; [congruence|assumption].
Qed.

End CreateOnceMore.

(** X27. A whole session on a formatted volume persists nothing: when
    fopen opens the volume and the context can be allocated, both at
    formatting and at mounting, cifsMountFileSystem, any sequence of
    cifsCreateFile calls and cifsUmountFileSystem leave the volume exactly
    as cifsCreateFileSystem wrote it, and no context. *)
Theorem session_persists_nothing (u : undeclared) (e0 e : env) (w0 : world)
    (requests : list (string * CIFS_CONTENT_TYPE)) :
  malloc_ok e0 = true -> fopen_ok e0 = true ->
  fopen_ok e = true -> malloc_ok e = true ->
  exists w1 w2,
    cifsCreateFileSystem e0 w0 = Returned (CIFS_NO_ERROR, w1) /\
    session u e w1 requests = Returned w2 /\
    cifsVolume w2 = cifsVolume w1 /\
    cifsContext w2 = None.
Proof.
  intros Hmalloc0 Hfopen0 Hfopen Hmalloc.
  exists (formatted_world e0 w0).
  pose proof (formatted_superblock_block e0 w0) as Hsuper.
  unfold session.
  rewrite (cifsMountFileSystem_call_result e (formatted_world e0 w0) formatted_superblock
             Hfopen Hmalloc Hsuper).
  cbn [obind snd].
  destruct (create_files_context u e formatted_superblock requests
              (with_context (formatted_world e0 w0)
                 (Some (mounted_context e formatted_superblock)))
              (mounted_context e formatted_superblock) eq_refl eq_refl Hsuper)
    as (blocks & w' & Hcreate & Hvol & Hctx).
  rewrite Hcreate. cbn [obind snd].
  unfold cifsUmountFileSystem. rewrite Hctx. cbn [obind snd].
  eexists. split; [now apply cifsCreateFileSystem_world|].
  split; [reflexivity|]. split; [|reflexivity].
  cbn [cifsVolume]. rewrite Hvol. cbn [with_context cifsVolume formatted_world].
  unfold cifsWriteBlock. apply insert_id. exact Hsuper.
Qed.

Lemma session_persists_nothing_witness :
  let requests := [("/a"%string, CIFS_FOLDER_CONTENT_TYPE); ("/a/b"%string, CIFS_FILE_CONTENT_TYPE)] in
  malloc_ok test_env = true /\ fopen_ok test_env = true /\
  fopen_ok test_env = true /\ malloc_ok test_env = true /\
  exists w1 w2,
    cifsCreateFileSystem test_env initial_world = Returned (CIFS_NO_ERROR, w1) /\
    session test_undeclared test_env w1 requests = Returned w2 /\
    cifsVolume w2 = cifsVolume w1 /\
    cifsContext w2 = None.
Proof.
  split; [reflexivity|]. split; [reflexivity|]. split; [reflexivity|].
  split; [reflexivity|].
  apply session_persists_nothing; reflexivity.
Defined.

(** X28. cifsCreateFile does not look at its arguments: whatever path and
    type are asked for, it builds the descriptor of an empty file named
    "file1" owned by the caller, writes no block, and leaves bitvector,
    registry and process list as they are; the context ends with the
    superblock of the volume. *)
Theorem cifsCreateFile_ignores_arguments (u : undeclared) (e : env) (w : world)
    (ctx : CIFS_CONTEXT_TYPE) (sb : CIFS_SUPERBLOCK_TYPE)
    (path1 path2 : string) (type1 type2 : CIFS_CONTENT_TYPE) :
  cifsContext w = Some ctx ->
  cifsVolume w !! ushort CIFS_SUPERBLOCK_INDEX = Some (SuperblockImage sb) ->
  cifsCreateFile u e w path1 type1 = cifsCreateFile u e w path2 type2 /\
  exists r fd ctx',
    cifsCreateFile u e w path1 type1 = Returned r /\
    descriptor_of (freeBlk r) = Some fd /\
    name fd = "file1"%string /\ type fd = CIFS_FILE_CONTENT_TYPE /\
    size fd = 0 /\ owner fd = uid (fuseContext e) /\
    cifsVolume (create_world r) = cifsVolume w /\
    cifsContext (create_world r) = Some ctx' /\
    superblock ctx' = sb /\ bitvector ctx' = bitvector ctx /\
    registry ctx' = registry ctx /\ processList ctx' = processList ctx.
Proof.
  intros Hctx Hsuper. split; [reflexivity|].
  destruct (cifsCreateFile_effect u e w ctx sb path1 type1 Hctx Hsuper)
    as (r & fd & Hr & Hvol & Hctx' & _ & Hfd & Hname & Htype & Hsize & Howner & _).
  exists r, fd, (with_superblock ctx sb). repeat split; assumption.
Qed.

Lemma cifsCreateFile_ignores_arguments_witness :
  let w := with_context (formatted_world test_env initial_world)
             (Some (mounted_context test_env formatted_superblock)) in
  let ctx := mounted_context test_env formatted_superblock in
  cifsContext w = Some ctx /\
  cifsVolume w !! ushort CIFS_SUPERBLOCK_INDEX = Some (SuperblockImage formatted_superblock) /\
  cifsCreateFile test_undeclared test_env w "/a" CIFS_FOLDER_CONTENT_TYPE =
    cifsCreateFile test_undeclared test_env w "/b" CIFS_FILE_CONTENT_TYPE /\
  exists r fd ctx',
    cifsCreateFile test_undeclared test_env w "/a" CIFS_FOLDER_CONTENT_TYPE = Returned r /\
    descriptor_of (freeBlk r) = Some fd /\
    name fd = "file1"%string /\ type fd = CIFS_FILE_CONTENT_TYPE /\
    size fd = 0 /\ owner fd = uid (fuseContext test_env) /\
    cifsVolume (create_world r) = cifsVolume w /\
    cifsContext (create_world r) = Some ctx' /\
    superblock ctx' = formatted_superblock /\ bitvector ctx' = bitvector ctx /\
    registry ctx' = registry ctx /\ processList ctx' = processList ctx.
Proof.
  split; [reflexivity|]. split; [vm_compute; reflexivity|].
  apply cifsCreateFile_ignores_arguments; [reflexivity|vm_compute; reflexivity].
Defined.

(** X29. The access rights that cifsCreateFileSystem and cifsCreateFile
    record are the file mode creation mask that the process had before the
    call (the value umask() returns), and the call installs the umask of
    the FUSE context, reduced to its nine permission bits, as the new mask
    of the process. Hence a file created after formatting and mounting
    with the same context carries that reduced umask. *)
Theorem access_rights_are_previous_umask (u : undeclared) (e : env) (w : world)
    (filePath : string) (type_ : CIFS_CONTENT_TYPE) :
  malloc_ok e = true -> fopen_ok e = true ->
  exists w1 root w2 r fd,
    cifsCreateFileSystem e w = Returned (CIFS_NO_ERROR, w1) /\
    volume_descriptor (cifsVolume w1) 32 = Some root /\
    accessRights root = process_umask w /\
    process_umask w1 = Z.land (umask (fuseContext e)) 511 /\
    cifsMountFileSystem e w1 = Returned (CIFS_NO_ERROR, w2) /\
    cifsCreateFile u e w2 filePath type_ = Returned r /\
    descriptor_of (freeBlk r) = Some fd /\
    accessRights fd = Z.land (umask (fuseContext e)) 511 /\
    process_umask (create_world r) = Z.land (umask (fuseContext e)) 511.
Proof.
  intros Hmalloc Hfopen.
  pose proof (formatted_superblock_block e w) as Hsuper.
  destruct (cifsCreateFile_effect u e
              (with_context (formatted_world e w) (Some (mounted_context e formatted_superblock)))
              (mounted_context e formatted_superblock) formatted_superblock filePath type_
              eq_refl Hsuper)
    as (r & fd & Hr & _ & _ & Hmask & Hfd & _ & _ & _ & _ & Hrights).
  exists (formatted_world e w), (root_descriptor e w),
         (with_context (formatted_world e w) (Some (mounted_context e formatted_superblock))),
         r, fd.
  split; [now apply cifsCreateFileSystem_world|].
  split; [vm_compute; reflexivity|]. split; [reflexivity|]. split; [reflexivity|].
  split; [now apply cifsMountFileSystem_result|].
  split; [exact Hr|]. split; [exact Hfd|]. split; [exact Hrights|exact Hmask].
Qed.

Lemma access_rights_are_previous_umask_witness :
  malloc_ok test_env = true /\ fopen_ok test_env = true /\
  exists w1 root w2 r fd,
    cifsCreateFileSystem test_env initial_world = Returned (CIFS_NO_ERROR, w1) /\
    volume_descriptor (cifsVolume w1) 32 = Some root /\
    accessRights root = process_umask initial_world /\
    process_umask w1 = Z.land (umask (fuseContext test_env)) 511 /\
    cifsMountFileSystem test_env w1 = Returned (CIFS_NO_ERROR, w2) /\
    cifsCreateFile test_undeclared test_env w2 "/file1" CIFS_FILE_CONTENT_TYPE = Returned r /\
    descriptor_of (freeBlk r) = Some fd /\
    accessRights fd = Z.land (umask (fuseContext test_env)) 511 /\
    process_umask (create_world r) = Z.land (umask (fuseContext test_env)) 511.
Proof.
  split; [reflexivity|]. split; [reflexivity|].
  apply access_rights_are_previous_umask; reflexivity.
Defined.

(** ** Identifiers of the live descriptors *)

Section LiveDescriptors.

Variables (e : env) (w : world).



End LiveDescriptors.


